(** * GreenBasket backend: the routes of [server.js]

    A shallow embedding of the request handlers of [server.js], and of the
    body parsers a webhook request passes before it reaches its handler:

    - [app.use(express.json())]              (server.js, line 12)
    - [app.post('/razorpay-webhook')]        (server.js, lines 206-263)
    - [app.post('/verify-payment')]          (server.js, lines 340-356)
    - the routes that call Razorpay and the [users] collection

    The handlers are written in a small state-and-exception monad over the
    Firestore [users] collection, the console and the Express response.
    What Node, Express and Firestore provide (HMAC-SHA256, [Buffer.toString],
    [JSON.parse], number formatting, which arrays and objects Firestore
    stores) is an interface, [Platform]; the handlers are verified against
    every implementation of it, and [Node] is an executable instance used to
    run them on concrete requests. *)

From Stdlib Require Import NArith List String Ascii Bool Lia.
From Stdlib.Strings Require Import Byte.
From stdpp Require Import base option gmap strings list.

Local Open Scope string_scope.

(** ** Bytes and buffers *)

(** A Node [Buffer]: the raw bytes of a request body. *)
Definition Buffer := list byte.

(** [Buffer.from(s)]: the bytes of a string. *)
Definition Buffer_from (s : string) : Buffer := list_byte_of_string s.

Module SHA256.

Local Open Scope N_scope.

(** 32-bit words are naturals below [2^32]; every operation truncates. *)
Definition word (x : N) : N := N.land x (N.ones 32).

Definition add (x y : N) : N := word (x + y).

Definition rotr (n x : N) : N :=
  N.lor (N.shiftr x n) (word (N.shiftl x (32 - n))).

Definition Ch (x y z : N) : N :=
  N.lxor (N.land x y) (N.land (N.lxor x (N.ones 32)) z).

Definition Maj (x y z : N) : N :=
  N.lxor (N.lxor (N.land x y) (N.land x z)) (N.land y z).

Definition bsig0 (x : N) : N := N.lxor (N.lxor (rotr 2 x) (rotr 13 x)) (rotr 22 x).
Definition bsig1 (x : N) : N := N.lxor (N.lxor (rotr 6 x) (rotr 11 x)) (rotr 25 x).
Definition ssig0 (x : N) : N := N.lxor (N.lxor (rotr 7 x) (rotr 18 x)) (N.shiftr x 3).
Definition ssig1 (x : N) : N := N.lxor (N.lxor (rotr 17 x) (rotr 19 x)) (N.shiftr x 10).

(** The constants are the first 32 fractional bits of the square roots
    (initial state) and cube roots (round constants) of the first primes. *)
Definition primes : list N :=
  [2; 3; 5; 7; 11; 13; 17; 19; 23; 29; 31; 37; 41; 43; 47; 53;
   59; 61; 67; 71; 73; 79; 83; 89; 97; 101; 103; 107; 109; 113; 127; 131;
   137; 139; 149; 151; 157; 163; 167; 173; 179; 181; 191; 193; 197; 199; 211; 223;
   227; 229; 233; 239; 241; 251; 257; 263; 269; 271; 277; 281; 283; 293; 307; 311].

(** Integer cube root by bisection on the bits of the result. *)
Fixpoint cbrt_bits (bits : nat) (x acc : N) : N :=
  match bits with
  | O => acc
  | S b =>
      let cand := acc + N.shiftl 1 (N.of_nat b) in
      cbrt_bits b x (if cand * cand * cand <=? x then cand else acc)
  end.

Definition frac_sqrt (p : N) : N := word (N.sqrt (N.shiftl p 64)).
Definition frac_cbrt (p : N) : N := word (cbrt_bits 40 (N.shiftl p 96) 0).

Definition K : list N := Eval vm_compute in List.map frac_cbrt primes.

Record state := State { sa : N; sb : N; sc : N; sd : N; se : N; sf : N; sg : N; sh : N }.

Definition H0 : state :=
  Eval vm_compute in
    match List.map frac_sqrt (firstn 8 primes) with
    | [a; b; c; d; e; f; g; h] => State a b c d e f g h
    | _ => State 0 0 0 0 0 0 0 0
    end.

(** One round of the compression function, with round constant [k] and
    schedule word [w]. *)
Definition round (k w : N) (s : state) : state :=
  let t1 := add (add (add (add (sh s) (bsig1 (se s))) (Ch (se s) (sf s) (sg s))) k) w in
  let t2 := add (bsig0 (sa s)) (Maj (sa s) (sb s) (sc s)) in
  State (add t1 t2) (sa s) (sb s) (sc s) (add (sd s) t1) (se s) (sf s) (sg s).

(** The message schedule as a sliding window of the last sixteen words. *)
Definition advance (win : list N) : list N :=
  let nw := add (add (add (ssig1 (nth 14 win 0)) (nth 9 win 0))
                     (ssig0 (nth 1 win 0))) (nth 0 win 0) in
  tl win ++ [nw].

Fixpoint rounds (ks win : list N) (s : state) : state :=
  match ks with
  | [] => s
  | k :: ks' => rounds ks' (advance win) (round k (nth 0 win 0) s)
  end.

Definition compress (s : state) (block : list N) : state :=
  let r := rounds K block s in
  State (add (sa s) (sa r)) (add (sb s) (sb r)) (add (sc s) (sc r)) (add (sd s) (sd r))
        (add (se s) (se r)) (add (sf s) (sf r)) (add (sg s) (sg r)) (add (sh s) (sh r)).

(** Big-endian packing of bytes into words and back. *)
Fixpoint words_of_bytes (bs : list N) : list N :=
  match bs with
  | b0 :: b1 :: b2 :: b3 :: rest =>
      (N.shiftl b0 24 + N.shiftl b1 16 + N.shiftl b2 8 + b3) :: words_of_bytes rest
  | _ => []
  end.

Definition byte_at (x : N) (i : N) : byte :=
  match Byte.of_N (N.land (N.shiftr x (8 * i)) 255) with
  | Some b => b
  | None => x00
  end.

Definition bytes_of_word (x : N) : list byte :=
  [byte_at x 3; byte_at x 2; byte_at x 1; byte_at x 0].

Definition bytes_of_state (s : state) : list byte :=
  bytes_of_word (sa s) ++ bytes_of_word (sb s) ++ bytes_of_word (sc s) ++
  bytes_of_word (sd s) ++ bytes_of_word (se s) ++ bytes_of_word (sf s) ++
  bytes_of_word (sg s) ++ bytes_of_word (sh s).

(** Padding: a [0x80] byte, zeros up to 56 modulo 64, then the bit length
    on eight bytes. *)
Definition pad (len : N) : list N :=
  let zeros := (119 - len mod 64) mod 64 in
  let bits := 8 * len in
  128 :: repeat 0 (N.to_nat zeros) ++
  List.map (fun i => N.land (N.shiftr bits (8 * i)) 255) [7; 6; 5; 4; 3; 2; 1; 0].

Fixpoint blocks (n : nat) (ws : list N) (s : state) : state :=
  match n with
  | O => s
  | S n' => blocks n' (skipn 16 ws) (compress s (firstn 16 ws))
  end.

Definition hash (msg : list byte) : list byte :=
  let bs := List.map Byte.to_N msg in
  let ws := words_of_bytes (bs ++ pad (N.of_nat (length bs))) in
  bytes_of_state (blocks (Nat.div (length ws) 16) ws H0).

End SHA256.

(** HMAC (RFC 2104) over SHA-256, with its 64-byte block. *)
Definition xor_byte (c : N) (b : byte) : byte :=
  match Byte.of_N (N.lxor c (Byte.to_N b)) with
  | Some b' => b'
  | None => x00
  end.

Definition hmac_sha256 (key msg : list byte) : list byte :=
  let k0 := if Nat.ltb 64 (length key) then SHA256.hash key else key in
  let k := (k0 ++ repeat x00 (64 - length k0))%list in
  SHA256.hash (List.map (xor_byte 92) k ++ SHA256.hash (List.map (xor_byte 54) k ++ msg))%list.

(** [digest('hex')]: two lowercase hexadecimal digits per byte. *)
Definition hex_digits : list ascii :=
  list_ascii_of_string "0123456789abcdef".

Definition hex_digit (n : N) : ascii := nth (N.to_nat n) hex_digits "0"%char.

Fixpoint hex_of_bytes (bs : list byte) : string :=
  match bs with
  | [] => EmptyString
  | b :: rest =>
      let n := Byte.to_N b in
      String (hex_digit (N.shiftr n 4)) (String (hex_digit (N.land n 15)) (hex_of_bytes rest))
  end.

Definition hmac_sha256_hex (key : string) (data : Buffer) : string :=
  hex_of_bytes (hmac_sha256 (list_byte_of_string key) data).

(** Every string of [n] hexadecimal digits. *)

(** ** JavaScript values

    The values [JSON.parse] produces, and [undefined].  A string is kept as
    its UTF-8 bytes and a number as the text it was written with: what
    JavaScript does with a number (is it zero, how is it printed) is left to
    the [Platform]. *)
#[warnings="-register-all"] Inductive JsValue : Type :=
| JUndefined
| JNull
| JBool (b : bool)
| JNumber (lexeme : string)
| JString (s : string)
| JArray (items : list JsValue)
| JObject (props : list (string * JsValue)).

Inductive JsError : Type :=
| TypeError (what : string)
| SyntaxError (what : string)
| FirestoreError (what : string).

Inductive Result (A : Type) : Type :=
| Ok (a : A)
| Throw (e : JsError).
Arguments Ok {A} a.
Arguments Throw {A} e.

(** Own properties of an object literal; assigning an existing key keeps
    its place. *)
Fixpoint obj_get (props : list (string * JsValue)) (p : string) : option JsValue :=
  match props with
  | [] => None
  | (k, v) :: rest => if String.eqb k p then Some v else obj_get rest p
  end.

Fixpoint obj_set (props : list (string * JsValue)) (p : string) (v : JsValue)
  : list (string * JsValue) :=
  match props with
  | [] => [(p, v)]
  | (k, x) :: rest => if String.eqb k p then (k, v) :: rest else (k, x) :: obj_set rest p v
  end.

(** [v.p] for the property names the handlers read ([event], [payload],
    [account], [entity], [id], [status], [kyc_status], [orderId], ...),
    none of which is inherited from a prototype: reading from [undefined] or
    [null] throws, a missing property is [undefined]. *)
Definition get (v : JsValue) (p : string) : Result JsValue :=
  match v with
  | JUndefined => Throw (TypeError "Cannot read properties of undefined")
  | JNull => Throw (TypeError "Cannot read properties of null")
  | JObject props => Ok (default JUndefined (obj_get props p))
  | _ => Ok JUndefined
  end.

(** [x === 'literal'], and [digest === x] for a string [digest]. *)
Definition strict_equals_string (v : JsValue) (s : string) : bool :=
  match v with
  | JString t => String.eqb t s
  | _ => false
  end.

Definition is_undefined (v : JsValue) : bool :=
  match v with
  | JUndefined => true
  | _ => false
  end.

(** Structural equality, as Firestore compares a stored field with the
    operand of [where(field, '==', value)] (exact on strings, booleans and
    [null]; numbers are compared by their text). *)
Fixpoint JsValue_eqb (a b : JsValue) : bool :=
  match a, b with
  | JUndefined, JUndefined => true
  | JNull, JNull => true
  | JBool x, JBool y => Bool.eqb x y
  | JNumber x, JNumber y => String.eqb x y
  | JString x, JString y => String.eqb x y
  | JArray xs, JArray ys =>
      (fix items (xs ys : list JsValue) : bool :=
         match xs, ys with
         | [], [] => true
         | x :: xs', y :: ys' => JsValue_eqb x y && items xs' ys'
         | _, _ => false
         end) xs ys
  | JObject ps, JObject qs =>
      (fix members (ps qs : list (string * JsValue)) : bool :=
         match ps, qs with
         | [], [] => true
         | (k, x) :: ps', (l, y) :: qs' => String.eqb k l && JsValue_eqb x y && members ps' qs'
         | _, _ => false
         end) ps qs
  | _, _ => false
  end.

(** ** The platform

    What the handlers call but do not define. *)
Class Platform : Type := {
  (** [crypto.createHmac('sha256', key).update(data).digest('hex')] *)
  createHmac_sha256_hex : string -> Buffer -> string;
  (** [buf.toString()]: UTF-8 decoding *)
  Buffer_toString : Buffer -> string;
  (** the bytes [update] hashes when it is given a string *)
  utf8_bytes : string -> Buffer;
  (** [JSON.parse(text)]; [None] when it throws a SyntaxError *)
  JSON_parse : string -> option JsValue;
  (** is the number written [lexeme] zero (the only falsy JSON numbers) *)
  Number_isZero : string -> bool;
  (** [String(n)] for the number written [lexeme] *)
  Number_toString : string -> string;
  (** does Firestore take this array or object as a field value or as the
      operand of a query (depth, arrays inside arrays, field names) *)
  Firestore_accepts : JsValue -> bool
}.

Section Handlers.

Context {platform : Platform}.

(** [!!v] *)
Definition truthy (v : JsValue) : bool :=
  match v with
  | JUndefined | JNull => false
  | JBool b => b
  | JNumber n => negb (Number_isZero n)
  | JString s => negb (String.eqb s EmptyString)
  | JArray _ | JObject _ => true
  end.

Definition join_with (sep : string) (parts : list string) : string :=
  match parts with
  | [] => EmptyString
  | p :: rest => fold_left (fun acc q => acc ++ sep ++ q) rest p
  end.

Definition and_then {A B} (r : Result A) (k : A -> Result B) : Result B :=
  match r with
  | Ok a => k a
  | Throw e => Throw e
  end.

(** [`${v}`].  An array prints its elements joined by commas.  An object
    prints as [[object Object]] through the inherited [toString]; when it
    has a property [toString] of its own (which a parsed JSON text never
    makes a function) the conversion throws. *)
Fixpoint ToString (v : JsValue) : Result string :=
  match v with
  | JUndefined => Ok "undefined"
  | JNull => Ok "null"
  | JBool true => Ok "true"
  | JBool false => Ok "false"
  | JNumber n => Ok (Number_toString n)
  | JString s => Ok s
  | JArray xs =>
      and_then
        ((fix each (xs : list JsValue) : Result (list string) :=
            match xs with
            | [] => Ok []
            | x :: rest =>
                and_then
                  match x with
                  | JUndefined | JNull => Ok EmptyString
                  | _ => ToString x
                  end
                  (fun s => and_then (each rest) (fun l => Ok (s :: l)))
            end) xs)
        (fun parts => Ok (join_with "," parts))
  | JObject props =>
      match obj_get props "toString" with
      | Some _ => Throw (TypeError "Cannot convert object to primitive value")
      | None => Ok "[object Object]"
      end
  end.

(** [crypto.createHmac('sha256', key)] throws when the key is [undefined]
    (an environment variable that is not set). *)
Definition createHmac (key : option string) : Result string :=
  match key with
  | None => Throw (TypeError "The key argument must be of type string")
  | Some k => Ok k
  end.

Definition JSON_parse_or_throw (text : string) : Result JsValue :=
  match JSON_parse text with
  | Some v => Ok v
  | None => Throw (SyntaxError "Unexpected token in JSON")
  end.

(** ** The world a handler runs in *)

(** [process.env] *)
Definition Env : Type := gmap string string.

(** [req.body] as the webhook handler can find it: the [Buffer] that
    [express.raw] stores, or the value that [express.json] stores. *)
Inductive Body : Type :=
| Bytes (bytes : Buffer)
| Value (v : JsValue).

Record Request : Type := {
  body : Body;
  headers : gmap string string
}.

Inductive ResBody : Type :=
| Text (s : string)
| Json (v : JsValue).

Record Response : Type := {
  status : N;
  payload : ResBody
}.

Inductive LogLevel : Type := Log | Warn | Error.

(** A document of the [users] collection: its id and its fields. *)
Definition Doc : Type := string * gmap string JsValue.

Inductive DbCall : Type :=
| WhereGet (field : string) (value : JsValue)
| Update (docid : string) (data : list (string * JsValue)).

(** The [users] collection in the order a query returns it, the calls made
    on it, the console and the response sent so far. *)
Record World : Type := {
  users : list Doc;
  db_calls : list DbCall;
  console : list (LogLevel * string);
  response : option Response
}.

(** Whether the Firestore calls of one request succeed at the server. *)
Record Network : Type := {
  get_fails : bool;
  update_fails : bool
}.

Definition online : Network := {| get_fails := false; update_fails := false |}.

(** ** The monad: a state, and JavaScript exceptions *)
Definition M (A : Type) : Type := World -> Result A * World.

Definition ret {A} (a : A) : M A := fun w => (Ok a, w).

Definition bind {A B} (m : M A) (k : A -> M B) : M B :=
  fun w =>
    match m w with
    | (Ok a, w') => k a w'
    | (Throw e, w') => (Throw e, w')
    end.

Definition lift {A} (r : Result A) : M A := fun w => (r, w).

Definition try_catch {A} (m : M A) (handler : JsError -> M A) : M A :=
  fun w =>
    match m w with
    | (Ok a, w') => (Ok a, w')
    | (Throw e, w') => handler e w'
    end.

Definition console_write (level : LogLevel) (line : string) : M unit :=
  fun w =>
    (Ok tt, {| users := users w; db_calls := db_calls w;
               console := console w ++ [(level, line)]; response := response w |}).

(** [res.status(code).send(text)] and [res.status(code).json(v)] *)
Definition res_send (code : N) (b : ResBody) : M unit :=
  fun w =>
    (Ok tt, {| users := users w; db_calls := db_calls w; console := console w;
               response := Some {| status := code; payload := b |} |}).

Definition record_call (c : DbCall) (w : World) : World :=
  {| users := users w; db_calls := db_calls w ++ [c];
     console := console w; response := response w |}.

Definition set_users (us : list Doc) (w : World) : World :=
  {| users := us; db_calls := db_calls w; console := console w; response := response w |}.

Notation "'let!' x ':=' m 'in' k" := (bind m (fun x => k))
  (at level 10, x name, m at level 100, k at level 200).
Notation "m ;; k" := (bind m (fun _ => k))
  (at level 100, k at level 200, right associativity).

(** ** Firestore: [db.collection('users')] *)

(** What the client and the server take as a field value or a query
    operand: never [undefined]; always a string, a number, a boolean or
    [null]; an array or an object when the platform says so. *)
Definition firestore_value (v : JsValue) : bool :=
  match v with
  | JUndefined => false
  | JArray _ | JObject _ => Firestore_accepts v
  | _ => true
  end.

Definition doc_matches (field : string) (value : JsValue) (d : Doc) : bool :=
  match d.2 !! field with
  | Some x => JsValue_eqb x value
  | None => false
  end.

(** [usersRef.where(field, '==', value).get()]: the matching documents, in
    the collection's order. *)
Definition where_get (net : Network) (field : string) (value : JsValue) : M (list Doc) :=
  fun w =>
    let w' := record_call (WhereGet field value) w in
    if negb (firestore_value value) then
      (Throw (FirestoreError "Value for argument value is not a valid query constraint"), w')
    else if get_fails net then
      (Throw (FirestoreError "UNAVAILABLE"), w')
    else
      (Ok (List.filter (doc_matches field value) (users w)), w').

(** The fields of [data] written over those of a document; the other
    fields stay. *)
Definition apply_update (fields : gmap string JsValue) (data : list (string * JsValue))
  : gmap string JsValue :=
  fold_left (fun d kv => <[kv.1 := kv.2]> d) data fields.

Definition update_doc (docid : string) (data : list (string * JsValue)) (d : Doc) : Doc :=
  if String.eqb d.1 docid then (d.1, apply_update d.2 data) else d.

Definition has_doc (docid : string) (us : list Doc) : bool :=
  existsb (fun d => String.eqb d.1 docid) us.

(** [docRef.update(data)]: every field must be a Firestore value, the
    server must take the write, and the document must exist. *)
Definition doc_update (net : Network) (docid : string) (data : list (string * JsValue))
  : M unit :=
  fun w =>
    let w' := record_call (Update docid data) w in
    if negb (forallb (fun kv => firestore_value kv.2) data) then
      (Throw (FirestoreError "Value for argument dataOrField is not a valid Firestore value"),
       w')
    else if update_fails net then
      (Throw (FirestoreError "UNAVAILABLE"), w')
    else if negb (has_doc docid (users w)) then
      (Throw (FirestoreError "NOT_FOUND"), w')
    else
      (Ok tt, set_users (update_doc docid data <$> users w) w').

(** ** [app.post('/razorpay-webhook', express.raw(...), async (req, res) => ...)]

    The handler takes [req.body] as the parsers before it left it: a
    [Buffer], or a parsed value.  The timestamp that starts every console
    line, and the error object [console.error] prints, are left out of the
    lines.  An [async] handler that throws has its promise rejected: the
    outcome is [Throw], and the response is whatever was sent before. *)

(** [event.payload.account.entity.<field>] *)
Definition entity_field (event : JsValue) (field : string) : Result JsValue :=
  and_then (get event "payload") (fun payload =>
  and_then (get payload "account") (fun account =>
  and_then (get account "entity") (fun entity =>
  get entity field))).

(** [event.event === 'account.activated' || event.event === 'account.updated'] *)
Definition is_account_event (tag : JsValue) : bool :=
  strict_equals_string tag "account.activated" || strict_equals_string tag "account.updated".

(** The console lines of lines 217, 225, 250 and 253. *)
Definition received_line (tag : JsValue) : Result string :=
  and_then (ToString tag) (fun t =>
  Ok ("Razorpay Webhook received: Event Type - " ++ t)).

Definition details_line (linkedAccountId accountStatus kycStatus : JsValue) : Result string :=
  and_then (ToString linkedAccountId) (fun i =>
  and_then (ToString accountStatus) (fun s =>
  and_then (ToString kycStatus) (fun k =>
  Ok ("Webhook Details: Account ID: " ++ i ++ ", Status: " ++ s ++ ", KYC Status: " ++ k)))).

Definition no_producer_line (linkedAccountId : JsValue) : Result string :=
  and_then (ToString linkedAccountId) (fun i =>
  Ok ("Webhook: No producer found in Firebase for linkedAccountId: " ++ i)).

Definition update_error_line (linkedAccountId : JsValue) : Result string :=
  and_then (ToString linkedAccountId) (fun i =>
  Ok ("Webhook Firebase update error for " ++ i ++ ":")).

(** Lines 234-244: the object passed to [update]. *)
Definition updateData (accountStatus kycStatus : JsValue) : list (string * JsValue) :=
  let data := [("razorpayAccountStatus", accountStatus); ("razorpayKycStatus", kycStatus)] in
  if strict_equals_string kycStatus "verified" then
    obj_set data "kycCompleted" (JBool true)
  else if strict_equals_string kycStatus "pending" || strict_equals_string kycStatus "rejected" then
    obj_set data "kycCompleted" (JBool false)
  else data.

(** Lines 227-254: the [try] block and its [catch]. *)
Definition reconcile (net : Network) (linkedAccountId accountStatus kycStatus : JsValue)
  : M unit :=
  try_catch
    (let! docs := where_get net "linkedAccountId" linkedAccountId in
     match docs with
     | userDoc :: _ =>
         doc_update net userDoc.1 (updateData accountStatus kycStatus) ;;
         console_write Log
           ("Firebase updated for producer " ++ userDoc.1 ++ " with Razorpay status.")
     | [] =>
         let! line := lift (no_producer_line linkedAccountId) in
         console_write Warn line
     end)
    (fun error =>
       let! line := lift (update_error_line linkedAccountId) in
       console_write Error line).

(** What [update] throws for a value that is neither a string nor a
    [Buffer]. *)
Definition invalid_data : JsError :=
  TypeError
    "The data argument must be of type string or an instance of Buffer, TypedArray, or DataView".

(** [shasum.update(req.body)], line 211: a [Buffer] or a string is hashed
    (a string by its UTF-8 bytes); any other value throws. *)
Definition hmac_data (b : Body) : Result Buffer :=
  match b with
  | Bytes bytes => Ok bytes
  | Value (JString s) => Ok (utf8_bytes s)
  | Value _ => Throw invalid_data
  end.

(** [req.body.toString()], line 215 (reached for a [Buffer] or a string
    only, line 211 having thrown for the rest). *)
Definition body_text (b : Body) : Result string :=
  match b with
  | Bytes bytes => Ok (Buffer_toString bytes)
  | Value JUndefined => Throw (TypeError "Cannot read properties of undefined")
  | Value JNull => Throw (TypeError "Cannot read properties of null")
  | Value v => ToString v
  end.

(** Lines 215-258: what is done once the signature has passed. *)
Definition process_event (net : Network) (req : Request) : M unit :=
  let! text := lift (body_text (body req)) in
  let! event := lift (JSON_parse_or_throw text) in
  let! tag := lift (get event "event") in
  let! line := lift (received_line tag) in
  console_write Log line ;;
  (if is_account_event tag then
     let! linkedAccountId := lift (entity_field event "id") in
     let! accountStatus := lift (entity_field event "status") in
     let! kycStatus := lift (entity_field event "kyc_status") in
     let! details := lift (details_line linkedAccountId accountStatus kycStatus) in
     console_write Log details ;;
     reconcile net linkedAccountId accountStatus kycStatus
   else ret tt) ;;
  res_send 200 (Text "Webhook Received").

(** Line 214: [digest === req.headers['x-razorpay-signature']]; an absent
    header is [undefined]. *)
Definition signature_matches (digest : string) (header : option string) : bool :=
  bool_decide (Some digest = header).

(** Lines 207-262. *)
Definition razorpay_webhook (env : Env) (net : Network) (req : Request) : M unit :=
  let! secret := lift (createHmac (env !! "RAZORPAY_WEBHOOK_SECRET")) in
  let! data := lift (hmac_data (body req)) in
  let digest := createHmac_sha256_hex secret data in
  if signature_matches digest (headers req !! "x-razorpay-signature") then
    process_event net req
  else
    console_write Warn "Invalid webhook signature received." ;;
    res_send 403 (Text "Invalid Signature").

(** ** The body parsers before the webhook handler

    [app.use(express.json())] (line 12) is installed for every route and
    comes first; the route then has its own [express.raw({type:
    'application/json'})] (line 206).  Both are the parsers of
    [body-parser]: each leaves a request alone when [req._body] says a
    parser has read the body already, sets [req.body] to [{}] when it is
    not set, and reads the body only of a request that has one and whose
    content type is [application/json].  ([cors()] and [express.static],
    lines 11 and 13, pass a POST on as it is.) *)

(** An HTTP request as it reaches the application. *)
Record Delivery : Type := {
  (** the bytes of the body *)
  content : Buffer;
  (** a [Content-Length] or [Transfer-Encoding] header is there *)
  has_body : bool;
  (** the [Content-Type] is [application/json] *)
  json_type : bool;
  (** the status the reading of the body fails with, when it does
      (unsupported charset or encoding 415, body too large 413, a body cut
      short 400) *)
  unreadable : option N;
  http_headers : gmap string string
}.

(** [req.body] ([None] while it is not set) and [req._body]. *)
Record Parsing : Type := {
  req_body : option Body;
  body_parsed : bool
}.

(** [next()], or [next(err)] with the status of the error. *)
Inductive Passed : Type :=
| Next (p : Parsing)
| NextError (status : N).

Definition empty_object : JsValue := JObject [].

(** The first character that is not a space, a tab, a line feed or a
    carriage return: what the strict mode of [express.json] looks at. *)
Fixpoint firstchar (s : string) : option ascii :=
  match s with
  | EmptyString => None
  | String c rest =>
      if (Ascii.eqb c " " || Ascii.eqb c "009" || Ascii.eqb c "010" || Ascii.eqb c "013")%char
      then firstchar rest
      else Some c
  end.

Definition opens_compound (text : string) : bool :=
  match firstchar text with
  | Some c => (Ascii.eqb c "{" || Ascii.eqb c "[")%char
  | None => false
  end.

(** What a parser does before it reads: nothing when the body was parsed
    already; else [req.body = req.body || {}], and on to [read] only for a
    request with a body of the parser's content type. *)
Definition parser (read : Delivery -> Passed) (d : Delivery) (p : Parsing) : Passed :=
  if body_parsed p then Next p
  else
    let p' := {| req_body := Some (default (Value empty_object) (req_body p));
                 body_parsed := false |} in
    if negb (has_body d) then Next p'
    else if negb (json_type d) then Next p'
    else
      match unreadable d with
      | Some status => NextError status
      | None => read d
      end.

(** [express.json()]: an empty body is [{}]; in strict mode (the default)
    a text that does not start with a brace or a bracket is refused, and so
    is one that [JSON.parse] throws on. *)
Definition express_json : Delivery -> Parsing -> Passed :=
  parser (fun d =>
    let text := Buffer_toString (content d) in
    if String.eqb text EmptyString then
      Next {| req_body := Some (Value empty_object); body_parsed := true |}
    else if opens_compound text then
      match JSON_parse text with
      | Some v => Next {| req_body := Some (Value v); body_parsed := true |}
      | None => NextError 400
      end
    else NextError 400).

(** [express.raw({type: 'application/json'})]: the bytes as they came. *)
Definition express_raw : Delivery -> Parsing -> Passed :=
  parser (fun d => Next {| req_body := Some (Bytes (content d)); body_parsed := true |}).

(** How a request to [/razorpay-webhook] ends: the handler ran, or a
    parser passed an error on and Express answers with its status, the
    handler not being called. *)
Inductive Served : Type :=
| Handled (outcome : Result unit)
| Refused (status : N).

(** A request as it enters: nothing parsed yet. *)
Definition arriving : Parsing := {| req_body := None; body_parsed := false |}.

(** The request as the handler receives it. *)
Definition request_of (d : Delivery) (p : Parsing) : Request :=
  {| body := default (Value JUndefined) (req_body p); headers := http_headers d |}.

(** A request to [/razorpay-webhook] through the application: line 12,
    then the two handlers of line 206. *)
Definition webhook_route (env : Env) (net : Network) (d : Delivery) (w : World)
  : Served * World :=
  match express_json d arriving with
  | NextError status => (Refused status, w)
  | Next p =>
      match express_raw d p with
      | NextError status => (Refused status, w)
      | Next p' =>
          let (outcome, w') := razorpay_webhook env net (request_of d p') w in
          (Handled outcome, w')
      end
  end.

(** What the handler throws before it compares anything, when it does:
    the error of line 210 when the secret is not set, else the error of
    line 211. *)
Definition thrown_before_comparison (env : Env) : JsError :=
  match env !! "RAZORPAY_WEBHOOK_SECRET" with
  | None => TypeError "The key argument must be of type string"
  | Some _ => invalid_data
  end.

(** An object or an array. *)
Definition compound (v : JsValue) : bool :=
  match v with
  | JObject _ | JArray _ => true
  | _ => false
  end.

(** [JSON.parse] reads a text that starts with a brace as an object, and
    one that starts with a bracket as an array (ECMA-404, sections 6 and
    7). *)
Definition reads_compounds : Prop :=
  forall (text : string) (v : JsValue),
    opens_compound text = true -> JSON_parse text = Some v -> compound v = true.

(** ** [app.post('/verify-payment', (req, res) => ...)]

    [req.body] is what [express.json()] parsed; [process.env.KEY_SECRET] is
    read when the digest is computed (line 347). *)
Definition verify_message (st msg : string) : ResBody :=
  Json (JObject [("status", JString st); ("message", JString msg)]).

(** [`${orderId}|${paymentId}`] *)
Definition signed_message (orderId paymentId : JsValue) : Result string :=
  and_then (ToString orderId) (fun o =>
  and_then (ToString paymentId) (fun p =>
  Ok (o ++ "|" ++ p))).

Definition verify_payment (env : Env) (req_body : JsValue) : M unit :=
  let! orderId := lift (get req_body "orderId") in
  let! paymentId := lift (get req_body "paymentId") in
  let! razorpaySignature := lift (get req_body "razorpaySignature") in
  if negb (truthy orderId) || negb (truthy paymentId) || negb (truthy razorpaySignature) then
    res_send 400 (verify_message "failed" "Missing fields for verification.")
  else
    let! key := lift (createHmac (env !! "KEY_SECRET")) in
    let! message := lift (signed_message orderId paymentId) in
    let generatedSignature := createHmac_sha256_hex key (utf8_bytes message) in
    if negb (strict_equals_string razorpaySignature generatedSignature) then
      res_send 400 (verify_message "failed" "Invalid signature")
    else
      res_send 200 (verify_message "success" "Payment verified successfully").

(** ** Vocabulary of the properties *)

(** The world once the handler has answered with [code] and [b]. *)
Definition responded (w : World) (code : N) (b : ResBody) : World :=
  {| users := users w; db_calls := db_calls w; console := console w;
     response := Some {| status := code; payload := b |} |}.

(** [snapshot.docs[0]] of the lookup by [linkedAccountId]. *)
Definition matched_record (us : list Doc) (id : JsValue) : option Doc :=
  head (List.filter (doc_matches "linkedAccountId" id) us).

End Handlers.

(** Test texts are written with ['] where JSON has a double quote. *)
Definition json_text (s : string) : string :=
  string_of_list_ascii
    (List.map (fun c => if Ascii.eqb c "'" then "034"%char else c) (list_ascii_of_string s)).

(** ** An executable platform

    HMAC-SHA256 as above, and a reader for JSON texts (ECMA-404) over the
    bytes of the text. *)
Module Json.

Definition is_ws (c : ascii) : bool :=
  (Ascii.eqb c " " || Ascii.eqb c "009" || Ascii.eqb c "010" || Ascii.eqb c "013")%char.

Fixpoint skip_ws (s : string) : string :=
  match s with
  | String c rest => if is_ws c then skip_ws rest else s
  | EmptyString => s
  end.

Definition is_digit (c : ascii) : bool :=
  let n := N_of_ascii c in (48 <=? n)%N && (n <=? 57)%N.

(** The longest prefix of digits, and what follows it. *)
Fixpoint digits (s : string) : string * string :=
  match s with
  | String c rest =>
      if is_digit c then let (ds, r) := digits rest in (String c ds, r) else (EmptyString, s)
  | EmptyString => (EmptyString, s)
  end.

(** An optional minus sign, an integer part without leading zero, an
    optional fraction and an optional exponent. *)
Definition number (s : string) : option (string * string) :=
  let (sign, s1) :=
    match s with
    | String "-" r => ("-", r)
    | _ => (EmptyString, s)
    end in
  let (int, s2) := digits s1 in
  match int with
  | EmptyString => None
  | String "0" (String _ _) => None
  | _ =>
      let frac :=
        match s2 with
        | String "." r =>
            let (ds, r') := digits r in
            match ds with
            | EmptyString => None
            | _ => Some ("." ++ ds, r')
            end
        | _ => Some (EmptyString, s2)
        end in
      match frac with
      | None => None
      | Some (fr, s3) =>
          let exp :=
            match s3 with
            | String e r =>
                if (Ascii.eqb e "e" || Ascii.eqb e "E")%char then
                  let (sg, r1) :=
                    match r with
                    | String "+" r1 => ("+", r1)
                    | String "-" r1 => ("-", r1)
                    | _ => (EmptyString, r)
                    end in
                  let (ds, r2) := digits r1 in
                  match ds with
                  | EmptyString => None
                  | _ => Some (String e (sg ++ ds), r2)
                  end
                else Some (EmptyString, s3)
            | EmptyString => Some (EmptyString, s3)
            end in
          match exp with
          | None => None
          | Some (ex, s4) => Some (sign ++ int ++ fr ++ ex, s4)
          end
      end
  end.

(** A string literal is read into raw bytes and escaped code units; pairs
    of surrogate escapes are joined afterwards. *)
Inductive unit16 : Type :=
| Raw (c : ascii)
| Esc (code : N).

Definition hex_value (c : ascii) : option N :=
  let n := N_of_ascii c in
  if (48 <=? n)%N && (n <=? 57)%N then Some (n - 48)%N
  else if (97 <=? n)%N && (n <=? 102)%N then Some (n - 87)%N
  else if (65 <=? n)%N && (n <=? 70)%N then Some (n - 55)%N
  else None.

Definition hex4 (a b c d : ascii) : option N :=
  match hex_value a, hex_value b, hex_value c, hex_value d with
  | Some x, Some y, Some z, Some t => Some (4096 * x + 256 * y + 16 * z + t)%N
  | _, _, _, _ => None
  end.

Definition escape (c : ascii) : option ascii :=
  (if Ascii.eqb c "034" then Some "034"
   else if Ascii.eqb c "\" then Some "\"
   else if Ascii.eqb c "/" then Some "/"
   else if Ascii.eqb c "b" then Some "008"
   else if Ascii.eqb c "f" then Some "012"
   else if Ascii.eqb c "n" then Some "010"
   else if Ascii.eqb c "r" then Some "013"
   else if Ascii.eqb c "t" then Some "009"
   else None)%char.

(** After the opening quote: the units up to the closing quote. *)
Fixpoint chars (s : string) : option (list unit16 * string) :=
  match s with
  | EmptyString => None
  | String c rest =>
      if Ascii.eqb c "034"%char then Some ([], rest)
      else if Ascii.eqb c "\"%char then
        match rest with
        | String "u" (String h1 (String h2 (String h3 (String h4 rest')))) =>
            match hex4 h1 h2 h3 h4, chars rest' with
            | Some n, Some (us, r) => Some (Esc n :: us, r)
            | _, _ => None
            end
        | String e rest' =>
            match escape e, chars rest' with
            | Some x, Some (us, r) => Some (Raw x :: us, r)
            | _, _ => None
            end
        | EmptyString => None
        end
      else if (N_of_ascii c <? 32)%N then None
      else
        match chars rest with
        | Some (us, r) => Some (Raw c :: us, r)
        | None => None
        end
  end.

Definition utf8 (cp : N) : list ascii :=
  let cont (x : N) := ascii_of_N (128 + N.land x 63) in
  if (cp <? 128)%N then [ascii_of_N cp]
  else if (cp <? 2048)%N then [ascii_of_N (192 + N.shiftr cp 6); cont cp]
  else if (cp <? 65536)%N then
    [ascii_of_N (224 + N.shiftr cp 12); cont (N.shiftr cp 6); cont cp]
  else
    [ascii_of_N (240 + N.shiftr cp 18); cont (N.shiftr cp 12); cont (N.shiftr cp 6); cont cp].

Definition is_high (n : N) : bool := (55296 <=? n)%N && (n <? 56320)%N.
Definition is_low (n : N) : bool := (56320 <=? n)%N && (n <? 57344)%N.

Fixpoint encode (us : list unit16) : list ascii :=
  match us with
  | [] => []
  | Raw c :: rest => c :: encode rest
  | Esc hi :: rest =>
      match rest with
      | Esc lo :: rest' =>
          if is_high hi && is_low lo then
            (utf8 (65536 + 1024 * (hi - 55296) + (lo - 56320))%N ++ encode rest')%list
          else (utf8 hi ++ encode rest)%list
      | _ => (utf8 hi ++ encode rest)%list
      end
  end.

Definition string_literal (s : string) : option (string * string) :=
  match chars s with
  | Some (us, rest) => Some (string_of_list_ascii (encode us), rest)
  | None => None
  end.

(** Values, the elements of an array and the members of an object.  The
    fuel bounds the depth of the calls; [parse] gives enough of it. *)
Fixpoint value (fuel : nat) (s : string) : option (JsValue * string) :=
  match fuel with
  | O => None
  | S fuel' =>
      match skip_ws s with
      | String "{" rest =>
          match skip_ws rest with
          | String "}" rest' => Some (JObject [], rest')
          | _ => members fuel' rest []
          end
      | String "[" rest =>
          match skip_ws rest with
          | String "]" rest' => Some (JArray [], rest')
          | _ => elements fuel' rest []
          end
      | String "034" rest =>
          match string_literal rest with
          | Some (str, rest') => Some (JString str, rest')
          | None => None
          end
      | String "t" (String "r" (String "u" (String "e" rest))) => Some (JBool true, rest)
      | String "f" (String "a" (String "l" (String "s" (String "e" rest)))) =>
          Some (JBool false, rest)
      | String "n" (String "u" (String "l" (String "l" rest))) => Some (JNull, rest)
      | s' =>
          match number s' with
          | Some (lexeme, rest) => Some (JNumber lexeme, rest)
          | None => None
          end
      end
  end
with elements (fuel : nat) (s : string) (acc : list JsValue) : option (JsValue * string) :=
  match fuel with
  | O => None
  | S fuel' =>
      match value fuel' s with
      | Some (v, rest) =>
          match skip_ws rest with
          | String "," rest' => elements fuel' rest' (acc ++ [v])
          | String "]" rest' => Some (JArray (acc ++ [v]), rest')
          | _ => None
          end
      | None => None
      end
  end
with members (fuel : nat) (s : string) (acc : list (string * JsValue))
  : option (JsValue * string) :=
  match fuel with
  | O => None
  | S fuel' =>
      match skip_ws s with
      | String "034" rest =>
          match string_literal rest with
          | Some (key, rest1) =>
              match skip_ws rest1 with
              | String ":" rest2 =>
                  match value fuel' rest2 with
                  | Some (v, rest3) =>
                      match skip_ws rest3 with
                      | String "," rest4 => members fuel' rest4 (obj_set acc key v)
                      | String "}" rest4 => Some (JObject (obj_set acc key v), rest4)
                      | _ => None
                      end
                  | None => None
                  end
              | _ => None
              end
          | None => None
          end
      | _ => None
      end
  end.

Definition parse (text : string) : option JsValue :=
  match value (2 * String.length text + 2) text with
  | Some (v, rest) =>
      match skip_ws rest with
      | EmptyString => Some v
      | _ => None
      end
  | None => None
  end.

(** A number is zero when every digit before its exponent is [0]. *)
Fixpoint mantissa_zero (s : string) : bool :=
  match s with
  | EmptyString => true
  | String c rest =>
      if (Ascii.eqb c "e" || Ascii.eqb c "E")%char then true
      else if is_digit c then Ascii.eqb c "0"%char && mantissa_zero rest
      else mantissa_zero rest
  end.

(** Arrays and objects Firestore stores: no array directly inside an
    array. *)
Fixpoint storable (in_array : bool) (v : JsValue) : bool :=
  match v with
  | JUndefined => false
  | JArray xs => negb in_array && forallb (storable true) xs
  | JObject props => forallb (fun kv => storable false kv.2) props
  | _ => true
  end.

End Json.

(** The executable instance.  [Buffer_toString] and [utf8_bytes] are exact
    on well-formed UTF-8, [Number_toString] on integers written without
    sign or leading zero, [Number_isZero] on numbers that do not underflow. *)
#[export] Instance Node : Platform := {|
  createHmac_sha256_hex := hmac_sha256_hex;
  Buffer_toString := string_of_list_byte;
  utf8_bytes := list_byte_of_string;
  JSON_parse := Json.parse;
  Number_isZero := Json.mantissa_zero;
  Number_toString := fun lexeme => lexeme;
  Firestore_accepts := Json.storable false
|}.

(** ** Concrete requests and collections *)
Module Scenario.

Definition secret : string := "whsec_test".

Definition env : Env := {[ "RAZORPAY_WEBHOOK_SECRET" := secret ]}.

(** A POST of [text] as [application/json], with [signature] in the
    signature header. *)
Definition posted (text signature : string) : Delivery :=
  {| content := Buffer_from text;
     has_body := true;
     json_type := true;
     unreadable := None;
     http_headers := {[ "x-razorpay-signature" := signature ]} |}.

(** A request whose signature header is the digest of its body under [key]. *)
Definition signed (key : string) (text : string) : Delivery :=
  posted text (hmac_sha256_hex key (Buffer_from text)).

Definition account_event_text (tag status kyc : string) : string :=
  json_text ("{'event':'" ++ tag ++ "','payload':{'account':{'entity':{'id':'acc_123','status':'"
               ++ status ++ "','kyc_status':'" ++ kyc ++ "'}}}}").

Definition account_event (tag status kyc : string) : JsValue :=
  JObject
    [("event", JString tag);
     ("payload",
      JObject
        [("account",
          JObject
            [("entity",
              JObject
                [("id", JString "acc_123");
                 ("status", JString status);
                 ("kyc_status", JString kyc)])])])].

Definition p1 : Doc :=
  ("p1", {[ "linkedAccountId" := JString "acc_123"; "kycCompleted" := JBool false ]}).

Definition p2 : Doc :=
  ("p2", {[ "linkedAccountId" := JString "acc_999"; "kycCompleted" := JBool true ]}).

Definition world (us : list Doc) : World :=
  {| users := us; db_calls := []; console := []; response := None |}.

(** A signed delivery of an account event. *)
Definition delivery (tag status kyc : string) : Delivery :=
  signed secret (account_event_text tag status kyc).

(** A signed delivery of an event the handler does not reconcile. *)
Definition other_delivery : Delivery :=
  signed secret (json_text "{'event':'payment.captured'}").

Definition other_event : JsValue := JObject [("event", JString "payment.captured")].

(** The write of this request does not reach the store. *)
Definition write_fails : Network := {| get_fails := false; update_fails := true |}.

(** A request whose body was altered after it was signed. *)
Definition tampered : Delivery :=
  posted (account_event_text "account.activated" "activated" "verified")
    (hmac_sha256_hex secret
       (Buffer_from (account_event_text "account.activated" "activated" "pending"))).

(** A signed delivery of a body that is not JSON. *)
Definition malformed : Delivery := signed secret "not json".

(** A signed delivery of bytes that are not sent as [application/json]. *)
Definition untyped (text : string) : Delivery :=
  {| content := Buffer_from text;
     has_body := true;
     json_type := false;
     unreadable := None;
     http_headers := {[ "x-razorpay-signature" := hmac_sha256_hex secret (Buffer_from text) ]} |}.

(** The field [name] of the record the lookup of [acc_123] finds. *)
Definition field_of_acc_123 (us : list Doc) (name : string) : option JsValue :=
  match matched_record us (JString "acc_123") with
  | Some d => d.2 !! name
  | None => None
  end.


Definition payment (signature : JsValue) : JsValue :=
  JObject
    [("orderId", JString "order_1");
     ("paymentId", JString "pay_1");
     ("razorpaySignature", signature)].

End Scenario.

(** * The other routes of [server.js]

    [/create-linked-account], [/generate-razorpay-onboarding-link],
    [/complete-kyc], [/transfer] and [/initiate-payment].  The replies of
    the Razorpay API (through [axios] and through the [razorpay] client) are
    inputs of the handlers; the calls made are recorded.  As before, the
    timestamp of a console line and what [console.log] prints after its
    first argument are left out. *)

(** What these routes call but do not define. *)
Class Runtime : Type := {
  (** [s.substring(0, 15)] *)
  String_substring_0_15 : string -> string;
  (** [x * 100]; throws when [x] cannot be converted to a number *)
  Number_times_100 : JsValue -> Result JsValue;
  (** [Math.round(x * 100)] *)
  Math_round_times_100 : JsValue -> Result JsValue;
  (** [x <= 0] *)
  Number_le_zero : JsValue -> Result bool;
  (** [db.collection('users').doc(id)]: the id, within the collection, of
      the document the path names; throws when the path names no document *)
  users_doc : JsValue -> Result string
}.

(** ** The phone number of line 33 *)

(** [.replace(/^\+91/, '')] *)
Definition strip_plus91 (s : string) : string :=
  match s with
  | String "+" (String "9" (String "1" rest)) => rest
  | _ => s
  end.

(** [.replace(/\D/g, '')] *)
Fixpoint only_digits (s : string) : string :=
  match s with
  | EmptyString => EmptyString
  | String c rest =>
      if Json.is_digit c then String c (only_digits rest) else only_digits rest
  end.

Definition sanitize_phone (contact : string) : string :=
  only_digits (strip_plus91 contact).

(** [contact.replace(...)]: only a string has the method. *)
Definition sanitizedPhone (contact : JsValue) : Result string :=
  match contact with
  | JString s => Ok (sanitize_phone s)
  | _ => Throw (TypeError "contact.replace is not a function")
  end.

Section Routes.

Context {platform : Platform} {runtime : Runtime}.

Notation "'let!' x ':=' m 'in' k" := (bind m (fun x => k))
  (at level 10, x name, m at level 100, k at level 200).
Notation "m ;; k" := (bind m (fun _ => k))
  (at level 100, k at level 200, right associativity).

Definition error_of (e : JsError) : string :=
  match e with
  | TypeError m => m
  | SyntaxError m => m
  | FirestoreError m => m
  end.

(** The first document of the collection with this id. *)
Fixpoint find_doc (us : list Doc) (docid : string) : option (gmap string JsValue) :=
  match us with
  | [] => None
  | d :: rest => if String.eqb d.1 docid then Some d.2 else find_doc rest docid
  end.

Definition json (props : list (string * JsValue)) : ResBody := Json (JObject props).

(** ** [app.post('/complete-kyc', async (req, res) => ...)], lines 267-298 *)

Definition kyc_update (merchantId accountNumber ifscCode beneficiaryName : JsValue)
  : list (string * JsValue) :=
  [("kycCompleted", JBool true);
   ("linkedAccountId", merchantId);
   ("bankDetails",
    JObject [("accountNumber", accountNumber);
             ("ifscCode", ifscCode);
             ("beneficiaryName", beneficiaryName)])].

Definition complete_kyc (net : Network) (req_body : JsValue) : M unit :=
  let! producerId := lift (get req_body "producerId") in
  let! merchantId := lift (get req_body "merchantId") in
  let! accountNumber := lift (get req_body "accountNumber") in
  let! ifscCode := lift (get req_body "ifscCode") in
  let! beneficiaryName := lift (get req_body "beneficiaryName") in
  console_write Log "Incoming KYC Request:" ;;
  if negb (truthy producerId) || negb (truthy merchantId) || negb (truthy accountNumber)
     || negb (truthy ifscCode) || negb (truthy beneficiaryName) then
    console_write Error "❌ Missing fields in KYC submission:" ;;
    res_send 400 (json [("error", JString "Missing required fields")])
  else
    try_catch
      (let! p := lift (ToString producerId) in
       console_write Log ("Attempting Firestore update for producerId: " ++ p) ;;
       let! docid := lift (users_doc producerId) in
       doc_update net docid (kyc_update merchantId accountNumber ifscCode beneficiaryName) ;;
       console_write Log ("✅ KYC details successfully updated for Producer: " ++ p) ;;
       res_send 200 (json [("success", JBool true);
                           ("message", JString "KYC completed and saved.")]))
      (fun error =>
         let! p := lift (ToString producerId) in
         console_write Error ("❌ Failed to complete KYC for producer " ++ p ++ ":") ;;
         res_send 500 (json [("error", JString "Failed to complete KYC");
                             ("details", JString (error_of error))])).

(** ** Calls to Razorpay, and what a handler can throw *)

(** A thrown value as the [catch] blocks read it: [error.message] and
    [error.response?.data], [undefined] when absent. *)
Record Thrown : Type := {
  error_message : JsValue;
  error_response_data : JsValue
}.

Definition thrown_of (e : JsError) : Thrown :=
  {| error_message := JString (error_of e); error_response_data := JUndefined |}.

Inductive Call : Type :=
| DocGet (docid : string)
| DocUpdate (docid : string) (data : list (string * JsValue))
| HttpGet (url : string) (auth : JsValue)
| HttpPost (url : string) (data auth : JsValue)
| HttpPatch (url : string) (data auth : JsValue)
| TransfersCreate (args : JsValue)
| OrdersCreate (args : JsValue).

(** What a call to Razorpay comes back with: [response.data] (or the value
    the client resolves with), or the error it rejects with. *)
Inductive Reply : Type :=
| Replied (data : JsValue)
| Failed (error : Thrown).

Record Site : Type := {
  world : World;
  calls : list Call
}.

Inductive Outcome (A : Type) : Type :=
| Returned (a : A)
| Raised (e : Thrown).
Arguments Returned {A} a.
Arguments Raised {A} e.

Definition H (A : Type) : Type := Site -> Outcome A * Site.

Definition hret {A} (a : A) : H A := fun s => (Returned a, s).

Definition hbind {A B} (h : H A) (k : A -> H B) : H B :=
  fun s =>
    match h s with
    | (Returned a, s') => k a s'
    | (Raised e, s') => (Raised e, s')
    end.

Definition htry {A} (h : H A) (handler : Thrown -> H A) : H A :=
  fun s =>
    match h s with
    | (Returned a, s') => (Returned a, s')
    | (Raised e, s') => handler e s'
    end.

Definition from_result {A} (r : Result A) : H A :=
  fun s =>
    match r with
    | Ok a => (Returned a, s)
    | Throw e => (Raised (thrown_of e), s)
    end.

Notation "'do!' x ':=' h 'in' k" := (hbind h (fun x => k))
  (at level 10, x name, h at level 100, k at level 200).
Notation "h >>! k" := (hbind h (fun _ => k))
  (at level 100, k at level 200, right associativity).

Definition on_world (f : World -> World) (s : Site) : Site :=
  {| world := f (world s); calls := calls s |}.

Definition record (c : Call) (s : Site) : Site :=
  {| world := world s; calls := calls s ++ [c] |}.

Definition log (level : LogLevel) (line : string) : H unit :=
  fun s =>
    (Returned tt,
     on_world (fun w => {| users := users w; db_calls := db_calls w;
                           console := console w ++ [(level, line)];
                           response := response w |}) s).

(** A request starts with nothing sent. *)
Definition fresh {A} (h : H A) : H A :=
  fun s =>
    h (on_world (fun w => {| users := users w; db_calls := db_calls w;
                             console := console w; response := None |}) s).

(** [res.status(code).json(v)] and [res.status(code).send(v)]: a second
    answer to the same request throws. *)
Definition respond (code : N) (b : ResBody) : H unit :=
  fun s =>
    match response (world s) with
    | Some _ =>
        (Raised (thrown_of (TypeError "Cannot set headers after they are sent to the client")),
         s)
    | None => (Returned tt, on_world (fun w => responded w code b) s)
    end.

(** A call to Razorpay: recorded, then its reply. *)
Definition request (c : Call) (reply : Reply) : H JsValue :=
  fun s =>
    match reply with
    | Replied data => (Returned data, record c s)
    | Failed error => (Raised error, record c s)
    end.

(** [{ username: process.env.key_id, password: process.env.key_secret }] *)
Definition env_value (env : Env) (name : string) : JsValue :=
  match env !! name with
  | Some v => JString v
  | None => JUndefined
  end.

Definition razorpay_auth (env : Env) : JsValue :=
  JObject [("username", env_value env "key_id"); ("password", env_value env "key_secret")].

(** [v?.p] *)
Definition optional_get (v : JsValue) (p : string) : JsValue :=
  match v with
  | JObject props => default JUndefined (obj_get props p)
  | _ => JUndefined
  end.

(** [a || b] *)
Definition or_else (a b : JsValue) : JsValue := if truthy a then a else b.

(** [error?.response?.data?.description || error.message] *)
Definition details_of (error : Thrown) : JsValue :=
  or_else (optional_get (error_response_data error) "description") (error_message error).

(** [db.collection('users').doc(id).get()]: [None] when the document does
    not exist. *)
Definition doc_get (net : Network) (id : JsValue) : H (option (gmap string JsValue)) :=
  do! docid := from_result (users_doc id) in
  fun s =>
    let s' := record (DocGet docid) s in
    if get_fails net then
      (Raised (thrown_of (FirestoreError "UNAVAILABLE")), s')
    else
      (Returned (find_doc (users (world s)) docid), s').

(** [docRef.update(data)] that is not awaited: bad fields throw at once;
    otherwise the write is attempted and its outcome comes back as a value. *)
Definition start_update (net : Network) (docid : string) (data : list (string * JsValue))
  : H (Result unit) :=
  fun s =>
    let s' := record (DocUpdate docid data) s in
    if negb (forallb (fun kv => firestore_value kv.2) data) then
      (Raised (thrown_of (FirestoreError
                            "Value for argument dataOrField is not a valid Firestore value")),
       s')
    else if update_fails net then
      (Returned (Throw (FirestoreError "UNAVAILABLE")), s')
    else if negb (has_doc docid (users (world s))) then
      (Returned (Throw (FirestoreError "NOT_FOUND")), s')
    else
      (Returned (Ok tt),
       on_world (set_users (update_doc docid data <$> users (world s))) s').

(** ** [app.post('/create-linked-account', async (req, res) => ...)], lines 25-120 *)

Definition registered_address : JsValue :=
  JObject [("street1", JString "90-f/A1");
           ("street2", JString "Mayur Vihar-3");
           ("city", JString "Delhi");
           ("state", JString "Delhi");
           ("postal_code", JNumber "110096");
           ("country", JString "IN")].

Definition new_account (name email : JsValue) (phone reference : string) : JsValue :=
  JObject [("type", JString "route");
           ("email", email);
           ("phone", JString phone);
           ("legal_business_name", name);
           ("business_type", JString "individual");
           ("reference_id", JString reference);
           ("contact_name", name);
           ("profile",
            JObject [("category", JString "others");
                     ("subcategory", JString "others");
                     ("addresses", JObject [("registered", registered_address)])])].

(** [`prod_${producerId.substring(0, 15)}`] *)
Definition reference_id (producerId : JsValue) : Result string :=
  match producerId with
  | JString s => Ok ("prod_" ++ String_substring_0_15 s)
  | _ => Throw (TypeError "producerId.substring is not a function")
  end.

Definition account_patch (name : JsValue) : JsValue :=
  JObject [("legal_business_name", name);
           ("customer_facing_business_name", name);
           ("contact_name", name)].

Definition accounts_url : string := "https://api.razorpay.com/v2/accounts".

Definition create_linked_account
    (env : Env) (created patched : Reply) (net : Network) (req_body : JsValue) : H unit :=
  fresh
    (do! name := from_result (get req_body "name") in
     do! email := from_result (get req_body "email") in
     do! contact := from_result (get req_body "contact") in
     do! producerId := from_result (get req_body "producerId") in
     if negb (truthy name) || negb (truthy email) || negb (truthy contact)
        || negb (truthy producerId) then
       respond 400 (json [("error", JString "Missing required fields")])
     else
       htry
         (do! phone := from_result (sanitizedPhone contact) in
          do! nameText := from_result (ToString name) in
          log Log ("Creating Razorpay account for " ++ nameText ++ " with phone " ++ phone) >>!
          do! reference := from_result (reference_id producerId) in
          do! account :=
            request (HttpPost accounts_url (new_account name email phone reference)
                       (razorpay_auth env)) created in
          do! accountId := from_result (get account "id") in
          log Log "Razorpay Linked Account created:" >>!
          htry
            (do! idText := from_result (ToString accountId) in
             do! patchData :=
               request (HttpPatch (accounts_url ++ "/" ++ idText) (account_patch name)
                          (razorpay_auth env)) patched in
             log Log "Razorpay Account patched with business_type 'individual':")
            (fun patchError =>
               log Error "Failed to patch Razorpay account for business_type:") >>!
          respond 200 (json [("accountId", accountId)]) >>!
          do! docid := from_result (users_doc producerId) in
          do! written :=
            start_update net docid [("linkedAccountId", accountId);
                                    ("kycCompleted", JBool false)] in
          match written, ToString producerId with
          | Ok _, Ok p => log Log ("Firestore updated for producer " ++ p)
          | _, _ => log Error "Firestore update error:"
          end)
         (fun error =>
            log Error "Razorpay Error:" >>!
            respond 500 (json [("error", JString "Failed to create Razorpay account");
                               ("details", details_of error)]))).

(** ** [app.post('/generate-razorpay-onboarding-link', async (req, res) => ...)],
    lines 132-201 *)

Definition onboarding_branding : JsValue :=
  JObject [("color", JString "#528FF0");
           ("redirect_url", JString "https://yourapp.com/kyc-complete");
           ("logo", JString "https://yourapp.com/logo.png")].

Definition generate_onboarding_link
    (env : Env) (details link : Reply) (req_body : JsValue) : H unit :=
  fresh
    (do! linkedAccountId := from_result (get req_body "linkedAccountId") in
     if negb (truthy linkedAccountId) then
       respond 400
         (json [("error", JString "Missing linkedAccountId for onboarding link generation.")])
     else
       htry
         (do! idText := from_result (ToString linkedAccountId) in
          log Log ("Fetching Razorpay account details for " ++ idText ++ "...") >>!
          do! accountDetails :=
            request (HttpGet (accounts_url ++ "/" ++ idText) (razorpay_auth env)) details in
          log Log "Account Details:" >>!
          do! type := from_result (get accountDetails "type") in
          if negb (strict_equals_string type "route") then
            respond 400
              (json [("error",
                      JString "Account is not of type route, onboarding link not applicable.")])
          else
            do! accountStatus := from_result (get accountDetails "status") in
            if negb (strict_equals_string accountStatus "created") then
              do! statusText := from_result (ToString accountStatus) in
              respond 400
                (json [("error",
                        JString ("Cannot generate onboarding link, account status is "
                                   ++ statusText))])
            else
              log Log ("Generating onboarding link for " ++ idText ++ "...") >>!
              do! linkData :=
                request (HttpPost (accounts_url ++ "/" ++ idText ++ "/onboarding_link")
                           onboarding_branding (razorpay_auth env)) link in
              let onboardingLink := optional_get linkData "short_url" in
              if negb (truthy onboardingLink) then
                log Error "Failed: onboarding link is empty/null" >>!
                respond 500
                  (json [("error", JString "Failed to fetch onboarding link from Razorpay.")])
              else
                do! linkText := from_result (ToString onboardingLink) in
                log Log ("Onboarding link generated: " ++ linkText) >>!
                respond 200 (json [("onboardingLink", onboardingLink)]))
         (fun error =>
            log Error "Error generating onboarding link:" >>!
            respond 500 (json [("error", JString "Failed to generate Razorpay onboarding link");
                               ("details", details_of error)]))).

(** ** [app.post('/transfer', async (req, res) => ...)], lines 301-337 *)

Definition transfer_args (linkedAccountId paise transactionId : JsValue) : JsValue :=
  JObject [("account", linkedAccountId);
           ("amount", paise);
           ("currency", JString "INR");
           ("reference_id", transactionId);
           ("notes", JObject [("purpose", JString "Producer Payout")])].

Definition transfer (transferred : Reply) (net : Network) (req_body : JsValue) : H unit :=
  fresh
    (do! producerId := from_result (get req_body "producerId") in
     do! amount := from_result (get req_body "amount") in
     do! transactionId := from_result (get req_body "transactionId") in
     if negb (truthy producerId) || negb (truthy amount) || negb (truthy transactionId) then
       respond 400 (json [("error", JString "Missing fields in request")])
     else
       htry
         (do! userDoc := doc_get net producerId in
          match userDoc with
          | None => respond 404 (json [("error", JString "Producer not found")])
          | Some fields =>
              let linkedAccountId := default JUndefined (fields !! "linkedAccountId") in
              if negb (truthy linkedAccountId) then
                respond 404
                  (json [("error", JString "Producer linked Razorpay account ID not found")])
              else
                do! paise := from_result (Number_times_100 amount) in
                do! transferResponse :=
                  request (TransfersCreate (transfer_args linkedAccountId paise transactionId))
                    transferred in
                log Log "Transfer Successful:" >>!
                respond 200 (json [("success", JBool true); ("transfer", transferResponse)])
          end)
         (fun error =>
            log Error "Transfer Error:" >>!
            respond 500 (json [("error", JString "Transfer failed");
                               ("details", error_message error)]))).

(** ** [app.post('/initiate-payment', async (req, res) => ...)], lines 359-391 *)

(** [const { currency = "INR" } = req.body]: the default stands for
    [undefined] only. *)
Definition with_default (v fallback : JsValue) : JsValue :=
  match v with
  | JUndefined => fallback
  | _ => v
  end.

Definition order_options
    (paise currency localOrderId producerAccountId consumerId paymentMethod upiId : JsValue)
  : JsValue :=
  JObject [("amount", paise);
           ("currency", currency);
           ("receipt", localOrderId);
           ("payment_capture", JNumber "1");
           ("notes",
            JObject [("producerAccountId", producerAccountId);
                     ("consumerId", consumerId);
                     ("paymentMethod", paymentMethod);
                     ("upiId", or_else upiId (JString EmptyString))])].

Definition initiate_payment (ordered : Reply) (req_body : JsValue) : H unit :=
  fresh
    (do! amount := from_result (get req_body "amount") in
     do! currencyField := from_result (get req_body "currency") in
     let currency := with_default currencyField (JString "INR") in
     do! producerAccountId := from_result (get req_body "producerAccountId") in
     do! consumerId := from_result (get req_body "consumerId") in
     do! localOrderId := from_result (get req_body "localOrderId") in
     do! paymentMethod := from_result (get req_body "paymentMethod") in
     do! upiId := from_result (get req_body "upiId") in
     do! notPositive :=
       (if negb (truthy amount) then hret true else from_result (Number_le_zero amount)) in
     if notPositive || negb (truthy producerAccountId) || negb (truthy consumerId)
        || negb (truthy localOrderId) then
       respond 400 (json [("error", JString "Missing or invalid fields for order creation")])
     else
       htry
         (do! paise := from_result (Math_round_times_100 amount) in
          do! order :=
            request (OrdersCreate (order_options paise currency localOrderId producerAccountId
                                     consumerId paymentMethod upiId)) ordered in
          do! orderId := from_result (get order "id") in
          respond 200 (json [("orderId", orderId); ("amount", amount)]))
         (fun error =>
            log Error "❌ Razorpay Order creation failed:" >>!
            respond 500 (json [("error", JString "Failed to create Razorpay order");
                               ("details", error_message error)]))).

End Routes.

Arguments Returned {A} a.
Arguments Raised {A} e.

(** An executable [Runtime]: exact on ASCII strings, on amounts written as
    integers without sign, and on document ids without a slash. *)
Module Plain.

Fixpoint prefix (n : nat) (s : string) : string :=
  match n, s with
  | S n', String c rest => String c (prefix n' rest)
  | _, _ => EmptyString
  end.

Fixpoint all_digits (s : string) : bool :=
  match s with
  | EmptyString => true
  | String c rest => Json.is_digit c && all_digits rest
  end.

(** Only an amount written in digits is multiplied. *)
Definition times_100 (v : JsValue) : Result JsValue :=
  match v with
  | JNumber lexeme =>
      if all_digits lexeme then Ok (JNumber (lexeme ++ "00"))
      else Throw (TypeError "amount outside the executable runtime")
  | _ => Throw (TypeError "amount outside the executable runtime")
  end.

Definition le_zero (v : JsValue) : Result bool :=
  match v with
  | JNumber lexeme =>
      Ok (match lexeme with
          | String "-" _ => true
          | _ => Json.mantissa_zero lexeme
          end)
  | _ => Throw (TypeError "amount outside the executable runtime")
  end.

Fixpoint has_slash (s : string) : bool :=
  match s with
  | EmptyString => false
  | String c rest => Ascii.eqb c "/" || has_slash rest
  end.

Definition doc (id : JsValue) : Result string :=
  match id with
  | JString s =>
      if String.eqb s EmptyString || has_slash s then
        Throw (FirestoreError "Value for argument documentPath is not a valid resource path")
      else Ok s
  | _ => Throw (FirestoreError "Value for argument documentPath is not a valid resource path")
  end.

End Plain.

#[export] Instance PlainRuntime : Runtime := {|
  String_substring_0_15 := Plain.prefix 15;
  Number_times_100 := Plain.times_100;
  Math_round_times_100 := Plain.times_100;
  Number_le_zero := Plain.le_zero;
  users_doc := Plain.doc
|}.

(** Requests, replies and records for the other routes. *)
Module Visit.

Definition site (us : list Doc) : Site := {| world := Scenario.world us; calls := [] |}.

Definition env : Env := {[ "key_id" := "rzp_test_id"; "key_secret" := "rzp_test_secret" ]}.

(** A producer without a linked account. *)
Definition p3 : Doc := ("p3", {[ "name" := JString "Asha" ]}).

Definition kyc_request : JsValue :=
  JObject [("producerId", JString "p3");
           ("merchantId", JString "acc_123");
           ("accountNumber", JString "00112233");
           ("ifscCode", JString "HDFC0000001");
           ("beneficiaryName", JString "Asha")].

Definition kyc_request_without_bank : JsValue :=
  JObject [("producerId", JString "p3"); ("merchantId", JString "acc_123")].

Definition payout (amount : string) : JsValue :=
  JObject [("producerId", JString "p1");
           ("amount", JNumber amount);
           ("transactionId", JString "txn_1")].

Definition transfer_reply : JsValue := JObject [("id", JString "trf_1")].

(** An error as [axios] rejects with, carrying Razorpay's description. *)
Definition refused : Thrown :=
  {| error_message := JString "Request failed with status code 400";
     error_response_data := JObject [("description", JString "Invalid account")] |}.

Definition new_producer : JsValue :=
  JObject [("name", JString "Asha");
           ("email", JString "asha@example.com");
           ("contact", JString "+91 98765-43210");
           ("producerId", JString "p3")].

Definition new_producer_without_email : JsValue :=
  JObject [("name", JString "Asha");
           ("contact", JString "+91 98765-43210");
           ("producerId", JString "p3")].

Definition account (type status : string) : JsValue :=
  JObject [("id", JString "acc_777"); ("type", JString type); ("status", JString status)].

Definition onboarding_request : JsValue := JObject [("linkedAccountId", JString "acc_777")].

Definition link_reply : JsValue := JObject [("short_url", JString "https://rzp.io/i/abc")].

Definition order_request (amount : string) : JsValue :=
  JObject [("amount", JNumber amount);
           ("producerAccountId", JString "acc_123");
           ("consumerId", JString "c1");
           ("localOrderId", JString "order_local_1");
           ("paymentMethod", JString "upi")].

Definition order_reply : JsValue := JObject [("id", JString "order_9")].

End Visit.


(** * Properties *)

(** Splits a conjunction into its parts, and nothing else. *)
Ltac split_all := repeat match goal with |- _ /\ _ => split end.

Section Properties.

Context {platform : Platform}.

(** ** Reconciliation *)

Lemma apply_update_lookup
    (fields : gmap string JsValue) (data : list (string * JsValue)) (k : string) :
  apply_update fields data !! k =
    match obj_get (rev data) k with
    | Some v => Some v
    | None => fields !! k
    end.
Proof.
  unfold apply_update.
  induction data as [| [k' v] l IH] using rev_ind; [reflexivity |].
  rewrite fold_left_app, rev_unit. simpl.
  destruct (String.eqb_spec k' k) as [-> | Hne].
  - apply lookup_insert_eq.
  - rewrite lookup_insert_ne by assumption. exact IH.
Qed.

Lemma apply_update_idempotent
    (fields : gmap string JsValue) (data : list (string * JsValue)) :
  apply_update (apply_update fields data) data = apply_update fields data.
Proof.
  apply map_eq. intros k. rewrite !apply_update_lookup.
  destruct (obj_get (rev data) k); reflexivity.
Qed.

Lemma update_doc_idempotent (docid : string) (data : list (string * JsValue)) (d : Doc) :
  update_doc docid data (update_doc docid data d) = update_doc docid data d.
Proof.
  unfold update_doc. destruct (String.eqb d.1 docid) eqn:E; simpl; rewrite E; [| reflexivity].
  rewrite apply_update_idempotent. reflexivity.
Qed.

Lemma update_doc_id (docid : string) (data : list (string * JsValue)) (d : Doc) :
  (update_doc docid data d).1 = d.1.
Proof. unfold update_doc. destruct (String.eqb d.1 docid); reflexivity. Qed.

Lemma updateData_keeps_linkedAccountId (st kyc : JsValue) :
  obj_get (rev (updateData st kyc)) "linkedAccountId" = None.
Proof. unfold updateData. repeat case_match; reflexivity. Qed.

Lemma updateData_storable (st kyc : JsValue) :
  firestore_value st = true -> firestore_value kyc = true ->
  forallb (fun kv => firestore_value kv.2) (updateData st kyc) = true.
Proof.
  intros Hst Hkyc. unfold updateData.
  repeat case_match; simpl; rewrite Hst, Hkyc; reflexivity.
Qed.

Lemma doc_matches_update
    (id : JsValue) (docid : string) (data : list (string * JsValue)) (d : Doc) :
  obj_get (rev data) "linkedAccountId" = None ->
  doc_matches "linkedAccountId" id (update_doc docid data d)
  = doc_matches "linkedAccountId" id d.
Proof.
  intros Hkeep. unfold doc_matches, update_doc.
  destruct (String.eqb d.1 docid); [| reflexivity].
  simpl. rewrite apply_update_lookup, Hkeep. reflexivity.
Qed.

Lemma matched_record_update
    (us : list Doc) (id : JsValue) (docid : string) (data : list (string * JsValue)) :
  obj_get (rev data) "linkedAccountId" = None ->
  matched_record (update_doc docid data <$> us) id
  = update_doc docid data <$> matched_record us id.
Proof.
  intros Hkeep. unfold matched_record.
  induction us as [| d us IH]; [reflexivity |].
  simpl. rewrite doc_matches_update by assumption.
  destruct (doc_matches "linkedAccountId" id d); [reflexivity | exact IH].
Qed.

Lemma matched_record_has_doc (us : list Doc) (id : JsValue) (d : Doc) :
  matched_record us id = Some d -> has_doc d.1 us = true.
Proof.
  unfold matched_record, has_doc. intros Hhead.
  apply existsb_exists. exists d. split; [| apply String.eqb_refl].
  destruct (List.filter _ us) as [| d' l] eqn:E; [discriminate |].
  injection Hhead as ->.
  assert (In d (List.filter (doc_matches "linkedAccountId" id) us)) as Hin
    by (rewrite E; left; reflexivity).
  apply filter_In in Hin. tauto.
Qed.

(** The lookup finds nothing: a warning, and no write. *)
Lemma reconcile_miss (net : Network) (id st kyc : JsValue) (w : World) (idText : string) :
  ToString id = Ok idText ->
  firestore_value id = true ->
  get_fails net = false ->
  matched_record (users w) id = None ->
  reconcile net id st kyc w =
    (Ok tt,
     {| users := users w;
        db_calls := db_calls w ++ [WhereGet "linkedAccountId" id];
        console := console w
                     ++ [(Warn, "Webhook: No producer found in Firebase for linkedAccountId: "
                                  ++ idText)];
        response := response w |}).
Proof.
  intros Tid Hid Hnet Hnone.
  unfold reconcile, try_catch, bind, where_get, lift, no_producer_line, and_then.
  rewrite Hid, Hnet, Tid. simpl.
  unfold matched_record in Hnone.
  destruct (List.filter _ (users w)); [reflexivity | discriminate].
Qed.

(** The lookup finds a record and the write goes through. *)
Lemma reconcile_writes (id st kyc : JsValue) (w : World) (d : Doc) :
  firestore_value id = true ->
  forallb (fun kv => firestore_value kv.2) (updateData st kyc) = true ->
  matched_record (users w) id = Some d ->
  reconcile online id st kyc w =
    (Ok tt,
     {| users := update_doc d.1 (updateData st kyc) <$> users w;
        db_calls := (db_calls w ++ [WhereGet "linkedAccountId" id])
                      ++ [Update d.1 (updateData st kyc)];
        console := console w
                     ++ [(Log, "Firebase updated for producer " ++ d.1
                                 ++ " with Razorpay status.")];
        response := response w |}).
Proof.
  intros Hid Hdata Hd.
  pose proof (matched_record_has_doc _ _ _ Hd) as Hhas.
  unfold reconcile, try_catch, bind, where_get.
  rewrite Hid. simpl.
  unfold matched_record in Hd.
  destruct (List.filter _ (users w)) as [| d' l]; [discriminate |].
  injection Hd as ->.
  unfold doc_update. simpl.
  rewrite Hdata, Hhas. reflexivity.
Qed.

(** Whatever the store does, the [try] block ends normally and does not
    touch the response. *)
Lemma reconcile_swallows
    (net : Network) (id st kyc : JsValue) (w : World) (idText : string) :
  ToString id = Ok idText ->
  exists w', reconcile net id st kyc w = (Ok tt, w') /\ response w' = response w.
Proof.
  intros Tid.
  unfold reconcile, try_catch, bind, where_get, doc_update, lift,
    no_producer_line, update_error_line, and_then, console_write, record_call, set_users.
  rewrite Tid.
  repeat (case_match; simpl in *; simplify_eq); eauto.
Qed.

(** A failed lookup or a failed write: an error line, and no change. *)
Lemma reconcile_failure
    (net : Network) (id st kyc : JsValue) (w : World) (idText : string) :
  ToString id = Ok idText ->
  get_fails net = true \/ (matched_record (users w) id <> None /\ update_fails net = true) ->
  exists calls,
    reconcile net id st kyc w =
      (Ok tt,
       {| users := users w;
          db_calls := calls;
          console := console w
                       ++ [(Error, "Webhook Firebase update error for " ++ idText ++ ":")];
          response := response w |}).
Proof.
  intros Tid Hfail.
  unfold reconcile, try_catch, bind, where_get, lift, update_error_line, and_then.
  rewrite Tid.
  destruct (firestore_value id); simpl; [| eexists; reflexivity].
  destruct (get_fails net) eqn:Hget; [eexists; reflexivity |].
  destruct Hfail as [? | [Hsome Hupd]]; [discriminate |].
  unfold matched_record in Hsome.
  destruct (List.filter _ (users w)) as [| d l]; [contradiction |].
  unfold doc_update. simpl.
  destruct (forallb _ _); simpl; [| eexists; reflexivity].
  rewrite Hupd. eexists; reflexivity.
Qed.

(** The collection after the [try] block: as before, or with the matched
    record rewritten. *)
Lemma reconcile_users (net : Network) (id st kyc : JsValue) (w : World) :
  users (reconcile net id st kyc w).2 = users w \/
  exists d : Doc,
    firestore_value id = true /\
    forallb (fun kv => firestore_value kv.2) (updateData st kyc) = true /\
    matched_record (users w) id = Some d /\
    users (reconcile net id st kyc w).2 = update_doc d.1 (updateData st kyc) <$> users w.
Proof.
  unfold reconcile, try_catch, bind, where_get, matched_record, lift,
    no_producer_line, update_error_line, and_then.
  destruct (firestore_value id) eqn:Hid; simpl;
    [| left; destruct (ToString id); reflexivity].
  destruct (get_fails net); [left; destruct (ToString id); reflexivity |].
  destruct (List.filter _ (users w)) as [| d l];
    [left; destruct (ToString id); reflexivity |].
  unfold doc_update. simpl.
  destruct (forallb _ (updateData st kyc)) eqn:Hdata; simpl;
    [| left; destruct (ToString id); reflexivity].
  destruct (update_fails net); [left; destruct (ToString id); reflexivity |].
  destruct (has_doc d.1 (users w)); simpl; [| left; destruct (ToString id); reflexivity].
  right. exists d. repeat split; reflexivity.
Qed.
(** ** Payment verification *)


End Properties.

(** * The webhook through the application *)

Section Wiring.

Context {platform : Platform}.

(** [express.json()] on a request that arrives: it passes an error on, or
    leaves in [req.body] the empty object or what [JSON.parse] made of the
    text; and when it did not read the body, that is for a reason that
    keeps [express.raw] from reading it too. *)
Lemma express_json_outcome (d : Delivery) :
  (exists status : N, express_json d arriving = NextError status) \/
  exists (v : JsValue) (parsed : bool),
    express_json d arriving = Next {| req_body := Some (Value v); body_parsed := parsed |} /\
    (v = empty_object \/
     (opens_compound (Buffer_toString (content d)) = true /\
      JSON_parse (Buffer_toString (content d)) = Some v)) /\
    (parsed = false -> negb (has_body d) || negb (json_type d) = true).
Proof.
  unfold express_json, parser, arriving. cbn [body_parsed req_body default from_option id].
  destruct (has_body d); cbn [negb orb].
  2: { right. exists empty_object, false. split_all; [reflexivity | left; reflexivity | reflexivity]. }
  destruct (json_type d); cbn [negb].
  2: { right. exists empty_object, false. split_all; [reflexivity | left; reflexivity | reflexivity]. }
  destruct (unreadable d) as [status |]; [left; exists status; reflexivity |].
  destruct (String.eqb _ EmptyString).
  { right. exists empty_object, true.
    split_all; [reflexivity | left; reflexivity | discriminate]. }
  destruct (opens_compound _) eqn:Hopens; [| left; eexists; reflexivity].
  destruct (JSON_parse _) as [v |] eqn:Hparse; [| left; eexists; reflexivity].
  right. exists v, true.
  split_all; [reflexivity | right; split; reflexivity | discriminate].
Qed.

(** After that, [express.raw] changes nothing. *)
Lemma express_raw_passes (d : Delivery) (b : Body) (parsed : bool) :
  (parsed = false -> negb (has_body d) || negb (json_type d) = true) ->
  express_raw d {| req_body := Some b; body_parsed := parsed |}
  = Next {| req_body := Some b; body_parsed := parsed |}.
Proof.
  intros Hskipped. unfold express_raw, parser. cbn [body_parsed req_body default from_option id].
  destruct parsed; [reflexivity |].
  specialize (Hskipped eq_refl).
  destruct (has_body d); cbn [negb orb] in *; [| reflexivity].
  destruct (json_type d); cbn [negb] in *; [discriminate | reflexivity].
Qed.

(** So the handler runs on a parsed value, if it runs. *)
Lemma route_runs_on_value (env : Env) (net : Network) (d : Delivery) (w : World) :
  (exists status : N, webhook_route env net d w = (Refused status, w)) \/
  exists v : JsValue,
    (v = empty_object \/
     (opens_compound (Buffer_toString (content d)) = true /\
      JSON_parse (Buffer_toString (content d)) = Some v)) /\
    webhook_route env net d w
    = (Handled (razorpay_webhook env net {| body := Value v; headers := http_headers d |} w).1,
       (razorpay_webhook env net {| body := Value v; headers := http_headers d |} w).2).
Proof.
  unfold webhook_route.
  destruct (express_json_outcome d) as [(status & ->) | (v & parsed & -> & Hv & Hskipped)].
  - left. exists status. reflexivity.
  - right. exists v. split; [exact Hv |].
    rewrite (express_raw_passes d (Value v) parsed Hskipped).
    unfold request_of. cbn [req_body default from_option id].
    destruct (razorpay_webhook _ _ _ _). reflexivity.
Qed.

(** An object or an array stops the handler at line 211, or at line 210
    when the secret is not set. *)
Lemma handler_throws_on_compound
    (env : Env) (net : Network) (v : JsValue) (h : gmap string string) (w : World) :
  compound v = true ->
  razorpay_webhook env net {| body := Value v; headers := h |} w
  = (Throw (thrown_before_comparison env), w).
Proof.
  intros Hv. unfold razorpay_webhook, thrown_before_comparison, bind, lift, createHmac.
  destruct (env !! "RAZORPAY_WEBHOOK_SECRET"); [| reflexivity].
  cbn [body hmac_data]. destruct v; try discriminate Hv; reflexivity.
Qed.

(** With a [JSON.parse] that reads braces as objects and brackets as
    arrays, no request gets past line 211. *)
Lemma route_stops_before_comparison
    (env : Env) (net : Network) (d : Delivery) (w : World) :
  reads_compounds ->
  (exists status : N, webhook_route env net d w = (Refused status, w)) \/
  webhook_route env net d w = (Handled (Throw (thrown_before_comparison env)), w).
Proof.
  intros Hreads.
  destruct (route_runs_on_value env net d w) as [Hrefused | (v & Hv & ->)];
    [left; exact Hrefused | right].
  rewrite handler_throws_on_compound; [reflexivity |].
  destruct Hv as [-> | [Hopens Hparse]]; [reflexivity |].
  exact (Hreads _ v Hopens Hparse).
Qed.

(** A body that [express.json] parses to an object or an array. *)
Lemma route_on_parsed_body
    (env : Env) (net : Network) (d : Delivery) (w : World) (v : JsValue) :
  has_body d = true -> json_type d = true -> unreadable d = None ->
  String.eqb (Buffer_toString (content d)) EmptyString = false ->
  opens_compound (Buffer_toString (content d)) = true ->
  JSON_parse (Buffer_toString (content d)) = Some v ->
  compound v = true ->
  webhook_route env net d w = (Handled (Throw (thrown_before_comparison env)), w).
Proof.
  intros Hbody Htype Hread Hempty Hopens Hparse Hv.
  unfold webhook_route, express_json, express_raw, parser, request_of, arriving.
  cbn [body_parsed req_body default from_option id].
  rewrite Hbody, Htype, Hread, Hempty, Hopens, Hparse.
  cbn [negb body_parsed req_body default from_option id].
  rewrite handler_throws_on_compound by exact Hv. reflexivity.
Qed.

(** A body that [express.json] refuses. *)
Lemma route_on_refused_body
    (env : Env) (net : Network) (d : Delivery) (w : World) :
  has_body d = true -> json_type d = true -> unreadable d = None ->
  String.eqb (Buffer_toString (content d)) EmptyString = false ->
  opens_compound (Buffer_toString (content d)) = false \/
    JSON_parse (Buffer_toString (content d)) = None ->
  webhook_route env net d w = (Refused 400, w).
Proof.
  intros Hbody Htype Hread Hempty Hrefused.
  unfold webhook_route, express_json, parser, arriving.
  cbn [body_parsed req_body default from_option id].
  rewrite Hbody, Htype, Hread, Hempty. cbn [negb].
  destruct Hrefused as [-> | Hparse]; [reflexivity |].
  rewrite Hparse. destruct (opens_compound _); reflexivity.
Qed.

(** A body of another content type: the handler finds [{}]. *)
Lemma route_on_other_type
    (env : Env) (net : Network) (d : Delivery) (w : World) :
  json_type d = false ->
  webhook_route env net d w = (Handled (Throw (thrown_before_comparison env)), w).
Proof.
  intros Htype.
  unfold webhook_route, express_json, express_raw, parser, request_of, arriving.
  cbn [body_parsed req_body default from_option id].
  rewrite Htype.
  destruct (has_body d); cbn [negb body_parsed req_body default from_option id];
    rewrite handler_throws_on_compound by reflexivity; reflexivity.
Qed.

End Wiring.

Section WebhookClaims.

Context {platform : Platform}.

(** Lines 227-254 run twice for the same event with [kyc_status]
    "verified", the first time with the store reachable: the collection
    after the second run is the collection after the first. *)
Lemma reconcile_verified_idempotent (net : Network) (id st : JsValue) (w : World) :
  users (reconcile net id st (JString "verified")
           (reconcile online id st (JString "verified") w).2).2
  = users (reconcile online id st (JString "verified") w).2.
Proof.
  set (kyc := JString "verified").
  destruct (reconcile_users net id st kyc (reconcile online id st kyc w).2)
    as [Hsame | (d' & Hid & Hdata & Hd' & Hupd)]; [exact Hsame |].
  rewrite Hupd.
  destruct (matched_record (users w) id) as [d |] eqn:Hd.
  - rewrite (reconcile_writes id st kyc w d) in * by assumption.
    cbn [snd users] in *.
    rewrite matched_record_update in Hd' by apply updateData_keeps_linkedAccountId.
    rewrite Hd in Hd'. simpl in Hd'. injection Hd' as <-.
    rewrite update_doc_id.
    rewrite <- list_fmap_compose.
    apply list_fmap_ext. intros i x _. apply update_doc_idempotent.
  - destruct (reconcile_users online id st kyc w) as [Hkept | (d & _ & _ & Hsome & _)].
    + rewrite Hkept in Hd'. rewrite Hd in Hd'. discriminate.
    + rewrite Hd in Hsome. discriminate.
Qed.

(** C7: delivering the same event twice in succession leaves every record
    as one delivery leaves it.  Through the application this holds of
    every request (also of an authenticated "verified" event, which stops
    at line 211 both times); and the reconciliation of lines 227-254
    itself, run twice for the same "verified" event, leaves the collection
    as the first run left it, whether or not the second run reaches the
    store. *)
Theorem webhook_delivery_idempotent
    (env : Env) (first second : Network) (d : Delivery) (w : World) :
  reads_compounds ->
  let once := (webhook_route env first d w).2 in
  let twice := (webhook_route env second d once).2 in
  users twice = users once /\
  forall (net : Network) (id st : JsValue) (w0 : World),
    let reconciled := (reconcile online id st (JString "verified") w0).2 in
    users (reconcile net id st (JString "verified") reconciled).2 = users reconciled.
Proof.
  intros Hreads once twice. split; [| intros net id st w0; apply reconcile_verified_idempotent].
  subst twice.
  destruct (route_stops_before_comparison env second d once Hreads) as [(status & ->) | ->];
    reflexivity.
Qed.


(** X30: the handler of the webhook never finds the bytes of the request
    in [req.body]: [express.json()] (line 12) has run before the
    [express.raw] of the route (line 206), which then leaves the request
    alone.  When the handler runs, [req.body] is the empty object or what
    [JSON.parse] made of a text that starts with a brace or a bracket. *)
Theorem webhook_body_is_never_raw (env : Env) (net : Network) (d : Delivery) (w : World) :
  (exists status : N, webhook_route env net d w = (Refused status, w)) \/
  exists v : JsValue,
    (v = empty_object \/
     (opens_compound (Buffer_toString (content d)) = true /\
      JSON_parse (Buffer_toString (content d)) = Some v)) /\
    webhook_route env net d w
    = (Handled (razorpay_webhook env net {| body := Value v; headers := http_headers d |} w).1,
       (razorpay_webhook env net {| body := Value v; headers := http_headers d |} w).2).
Proof. apply route_runs_on_value. Qed.

End WebhookClaims.

(** * The executable platform *)

(** ** Known digests *)

Example sha256_abc :
  hex_of_bytes (SHA256.hash (Buffer_from "abc"))
  = "ba7816bf8f01cfea414140de5dae2223b00361a396177a9cb410ff61f20015ad".
Proof. vm_compute. reflexivity. Qed.

Example hmac_rfc4231_case2 :
  hmac_sha256_hex "Jefe" (Buffer_from "what do ya want for nothing?")
  = "5bdcc146bf60754e6a042426089575c75a003f089d2739839dec58b964ec3843".
Proof. vm_compute. reflexivity. Qed.

Example hmac_empty_key_empty_data :
  hmac_sha256_hex EmptyString []
  = "b613679a0814d9ec772f95d778c35fc5ff1697c493715653c6c712144292c5ad".
Proof. vm_compute. reflexivity. Qed.

Example hmac_long_key :
  hmac_sha256_hex (string_of_list_ascii (repeat "k"%char 100)) (repeat "m"%byte 200)
  = "a6bca6f4482167eeffadc0449a346c21ffe8f96177eceecaeb182b610f6128c8".
Proof. vm_compute. reflexivity. Qed.

Example parse_account_event :
  Json.parse (Scenario.account_event_text "account.activated" "activated" "verified")
  = Some (Scenario.account_event "account.activated" "activated" "verified").
Proof. vm_compute. reflexivity. Qed.

Example parse_rejects_text : Json.parse "not json" = None.
Proof. vm_compute. reflexivity. Qed.

Example parse_null : Json.parse "null" = Some JNull.
Proof. vm_compute. reflexivity. Qed.

(** An object with a [toString] entry of its own cannot be put in a
    template literal. *)
Example ToString_own_toString :
  (and_then
     (JSON_parse_or_throw (json_text "{'id':{'toString':1},'tags':['a',null,['b',2]]}"))
     (fun v =>
        and_then (get v "tags") (fun tags =>
        and_then (ToString tags) (fun printed =>
        and_then (get v "id") (fun id =>
        match ToString id with
        | Ok _ => Ok printed
        | Throw e => Throw e
        end)))))
  = Throw (TypeError "Cannot convert object to primitive value").
Proof. vm_compute. reflexivity. Qed.

Example ToString_array :
  ToString (JArray [JString "a"; JNull; JArray [JString "b"; JNumber "2"]]) = Ok "a,,b,2".
Proof. vm_compute. reflexivity. Qed.

(** ** The reader gives objects for braces and arrays for brackets *)

Lemma firstchar_skip_ws (s : string) :
  firstchar s = match Json.skip_ws s with
                | String c _ => Some c
                | EmptyString => None
                end.
Proof.
  induction s as [| c s IH]; [reflexivity |].
  simpl. unfold Json.is_ws.
  destruct (Ascii.eqb c " " || Ascii.eqb c "009" || Ascii.eqb c "010" || Ascii.eqb c "013")%char;
    [exact IH | reflexivity].
Qed.

Lemma members_object (fuel : nat) :
  forall (s : string) (acc : list (string * JsValue)) (v : JsValue) (rest : string),
    Json.members fuel s acc = Some (v, rest) -> compound v = true.
Proof.
  induction fuel as [| fuel IH]; intros s acc v rest Hm; [discriminate |].
  simpl in Hm.
  repeat (case_match; try discriminate);
    first [exact (IH _ _ _ _ Hm) | injection Hm as <- _; reflexivity].
Qed.

Lemma elements_array (fuel : nat) :
  forall (s : string) (acc : list JsValue) (v : JsValue) (rest : string),
    Json.elements fuel s acc = Some (v, rest) -> compound v = true.
Proof.
  induction fuel as [| fuel IH]; intros s acc v rest He; [discriminate |].
  simpl in He.
  repeat (case_match; try discriminate);
    first [exact (IH _ _ _ _ He) | injection He as <- _; reflexivity].
Qed.

Lemma value_compound (fuel : nat) (s : string) (v : JsValue) (rest : string) :
  opens_compound s = true ->
  Json.value fuel s = Some (v, rest) -> compound v = true.
Proof.
  unfold opens_compound. rewrite firstchar_skip_ws.
  destruct fuel as [| fuel]; [discriminate |].
  intros Hopens Hv. simpl in Hv.
  destruct (Json.skip_ws s) as [| c s']; [discriminate |].
  destruct (Ascii.eqb_spec c "{") as [-> | Hbrace].
  - destruct (Json.skip_ws s') as [| c' s''] eqn:E.
    + exact (members_object _ _ _ _ _ Hv).
    + destruct (Ascii.eqb_spec c' "}") as [-> | Hclose].
      * injection Hv as <- _. reflexivity.
      * assert (Json.members fuel s' [] = Some (v, rest)) as Hm.
        { destruct c' as [[] [] [] [] [] [] [] []]; try exact Hv. contradiction Hclose.
          reflexivity. }
        exact (members_object _ _ _ _ _ Hm).
  - destruct (Ascii.eqb_spec c "[") as [-> | Hbracket]; [| discriminate].
    destruct (Json.skip_ws s') as [| c' s''] eqn:E.
    + exact (elements_array _ _ _ _ _ Hv).
    + destruct (Ascii.eqb_spec c' "]") as [-> | Hclose].
      * injection Hv as <- _. reflexivity.
      * assert (Json.elements fuel s' [] = Some (v, rest)) as Hm.
        { destruct c' as [[] [] [] [] [] [] [] []]; try exact Hv. contradiction Hclose.
          reflexivity. }
        exact (elements_array _ _ _ _ _ Hm).
Qed.

Lemma Node_reads_compounds : reads_compounds (platform := Node).
Proof.
  intros text v Hopens Hparse.
  cbn [JSON_parse Node] in Hparse. unfold Json.parse in Hparse.
  destruct (Json.value _ text) as [[v' rest] |] eqn:Hv; [| discriminate].
  destruct (Json.skip_ws rest); [| discriminate].
  injection Hparse as <-.
  exact (value_compound _ _ _ _ Hopens Hv).
Qed.

(** * The theorems at concrete requests *)

(** Digests and parsed bodies are computed; lookups in the collection are
    compared as they stand. *)
Ltac evaluate := vm_compute; reflexivity.


(** * The webhook claims at the requests the provider sends

    Each of these requests is a POST of [application/json] whose signature
    header was computed over the bytes of its body.  [express.json()]
    (line 12) parses the body before the route of line 206 is reached, its
    [express.raw] then leaves the request alone, and the handler stops at
    [shasum.update(req.body)] (line 211): the placement that the comment of
    lines 203-205 asks for is not the one the file has. *)

Ltac parsed_as v :=
  apply route_on_parsed_body with v;
  [reflexivity | reflexivity | reflexivity | evaluate | evaluate | evaluate | reflexivity].

(** C1: the delivery of the authenticated event "account.activated" with
    [kyc_status] "verified" for the record of [acc_123] does not set
    [kycCompleted]: the handler throws at line 211, the world is as before
    and the record still has [kycCompleted] false. *)
Theorem webhook_verified_event_not_applied :
  let d := Scenario.delivery "account.activated" "activated" "verified" in
  let w := Scenario.world [Scenario.p1] in
  let r := webhook_route (platform := Node) Scenario.env online d w in
  http_headers d !! "x-razorpay-signature"
  = Some (hmac_sha256_hex Scenario.secret (content d)) /\
  r.1 = Handled (Throw invalid_data) /\
  r.2 = w /\
  Scenario.field_of_acc_123 (users r.2) "kycCompleted" = Some (JBool false).
Proof.
  intros d w r.
  assert (r = (Handled (Throw (thrown_before_comparison Scenario.env)), w)) as ->.
  { subst r d.
    parsed_as (Scenario.account_event "account.activated" "activated" "verified"). }
  split_all; reflexivity.
Qed.

(** C2: a request whose body was altered after it was signed is not
    answered with the rejection status: the handler throws at line 211,
    before the comparison of line 214, and sends nothing (no 403, no
    warning on the console). *)
Theorem webhook_tampered_request_not_answered :
  let d := Scenario.tampered in
  let w := Scenario.world [Scenario.p1] in
  let r := webhook_route (platform := Node) Scenario.env online d w in
  http_headers d !! "x-razorpay-signature"
  <> Some (hmac_sha256_hex Scenario.secret (content d)) /\
  r.1 = Handled (Throw invalid_data) /\
  response r.2 = None /\
  console r.2 = [].
Proof.
  intros d w r.
  assert (r = (Handled (Throw (thrown_before_comparison Scenario.env)), w)) as ->.
  { subst r d.
    parsed_as (Scenario.account_event "account.activated" "activated" "verified"). }
  split_all; [vm_compute; discriminate | reflexivity | reflexivity | reflexivity].
Qed.

(** C3: an authenticated account event is not acknowledged, neither when
    no record carries its account id nor when the store would refuse the
    write: the handler throws at line 211, before the store is reached;
    there is no response, no warning and no error line, and no call on the
    store. *)
Theorem webhook_store_outcomes_not_acknowledged :
  let d := Scenario.delivery "account.updated" "activated" "verified" in
  let miss := webhook_route (platform := Node) Scenario.env online d
                (Scenario.world [Scenario.p2]) in
  let failed := webhook_route (platform := Node) Scenario.env Scenario.write_fails d
                  (Scenario.world [Scenario.p1]) in
  matched_record [Scenario.p2] (JString "acc_123") = None /\
  miss.1 = Handled (Throw invalid_data) /\
  response miss.2 = None /\ console miss.2 = [] /\ db_calls miss.2 = [] /\
  failed.1 = Handled (Throw invalid_data) /\
  response failed.2 = None /\ console failed.2 = [] /\ db_calls failed.2 = [].
Proof.
  intros d miss failed.
  assert (miss = (Handled (Throw (thrown_before_comparison Scenario.env)),
                  Scenario.world [Scenario.p2])) as ->.
  { subst miss d.
    parsed_as (Scenario.account_event "account.updated" "activated" "verified"). }
  assert (failed = (Handled (Throw (thrown_before_comparison Scenario.env)),
                    Scenario.world [Scenario.p1])) as ->.
  { subst failed d.
    parsed_as (Scenario.account_event "account.updated" "activated" "verified"). }
  split_all; reflexivity.
Qed.

(** C4: the delivery of the authenticated event "account.updated" with
    status "under_review" and [kyc_status] "rejected" for the record of
    [acc_123] writes neither [razorpayAccountStatus] nor
    [razorpayKycStatus]: the handler throws at line 211 and the record is
    as before. *)
Theorem webhook_statuses_not_written :
  let d := Scenario.delivery "account.updated" "under_review" "rejected" in
  let w := Scenario.world [Scenario.p1] in
  let r := webhook_route (platform := Node) Scenario.env online d w in
  r.1 = Handled (Throw invalid_data) /\
  users r.2 = [Scenario.p1] /\
  Scenario.field_of_acc_123 (users r.2) "razorpayAccountStatus" = None /\
  Scenario.field_of_acc_123 (users r.2) "razorpayKycStatus" = None.
Proof.
  intros d w r.
  assert (r = (Handled (Throw (thrown_before_comparison Scenario.env)), w)) as ->.
  { subst r d.
    parsed_as (Scenario.account_event "account.updated" "under_review" "rejected"). }
  split_all; reflexivity.
Qed.

(** C5: the delivery of an authenticated event of another type
    ("payment.captured") makes no call on the store, and is not
    acknowledged either: the handler throws at line 211 and sends no
    response. *)
Theorem webhook_other_event_not_acknowledged :
  let d := Scenario.other_delivery in
  let w := Scenario.world [Scenario.p1] in
  let r := webhook_route (platform := Node) Scenario.env online d w in
  http_headers d !! "x-razorpay-signature"
  = Some (hmac_sha256_hex Scenario.secret (content d)) /\
  r.1 = Handled (Throw invalid_data) /\
  db_calls r.2 = [] /\
  response r.2 = None.
Proof.
  intros d w r.
  assert (r = (Handled (Throw (thrown_before_comparison Scenario.env)), w)) as ->.
  { subst r d. parsed_as Scenario.other_event. }
  split_all; reflexivity.
Qed.

(** C6: a signed request whose body is not JSON does not reach the
    handler: [express.json()] passes an error on, Express answers 400, and
    nothing is logged or acknowledged by the handler. *)
Theorem webhook_malformed_body_refused :
  let d := Scenario.malformed in
  let w := Scenario.world [Scenario.p1] in
  let r := webhook_route (platform := Node) Scenario.env online d w in
  http_headers d !! "x-razorpay-signature"
  = Some (hmac_sha256_hex Scenario.secret (content d)) /\
  r.1 = Refused 400 /\
  console r.2 = [] /\
  response r.2 = None.
Proof.
  intros d w r.
  assert (r = (Refused 400, w)) as ->.
  { subst r d. apply route_on_refused_body;
      [reflexivity | reflexivity | reflexivity | evaluate | left; evaluate]. }
  split_all; reflexivity.
Qed.

(** C8: a body is not verified against its own digest under the
    configured secret: whether it is sent as [application/json] (the
    handler finds the parsed object) or as anything else (the handler finds
    [{}]), line 211 throws and no comparison is made. *)
Theorem webhook_own_digest_not_verified :
  let sent := Scenario.delivery "account.updated" "created" "pending" in
  let other := Scenario.untyped "any bytes" in
  let w := Scenario.world [] in
  http_headers sent !! "x-razorpay-signature"
  = Some (hmac_sha256_hex Scenario.secret (content sent)) /\
  http_headers other !! "x-razorpay-signature"
  = Some (hmac_sha256_hex Scenario.secret (content other)) /\
  webhook_route (platform := Node) Scenario.env online sent w
  = (Handled (Throw invalid_data), w) /\
  webhook_route (platform := Node) Scenario.env online other w
  = (Handled (Throw invalid_data), w).
Proof.
  intros sent other w.
  assert (thrown_before_comparison Scenario.env = invalid_data) as <- by reflexivity.
  split_all.
  - reflexivity.
  - reflexivity.
  - subst sent. parsed_as (Scenario.account_event "account.updated" "created" "pending").
  - apply route_on_other_type. reflexivity.
Qed.

Lemma webhook_delivery_idempotent_witness :
  let d := Scenario.delivery "account.activated" "activated" "verified" in
  let once := (webhook_route (platform := Node) Scenario.env online d
                 (Scenario.world [Scenario.p1; Scenario.p2])).2 in
  let twice := (webhook_route (platform := Node) Scenario.env Scenario.write_fails d once).2 in
  users twice = users once.
Proof.
  intros d once twice.
  exact (proj1 (webhook_delivery_idempotent (platform := Node) Scenario.env online
                  Scenario.write_fails d (Scenario.world [Scenario.p1; Scenario.p2])
                  Node_reads_compounds)).
Defined.


(** * More about the webhook handler and the payment check *)

Section WebhookInvariants.

Context {platform : Platform}.

Lemma process_event_users (net : Network) (req : Request) (w : World) :
  users (process_event net req w).2 = users w \/
  exists (d : Doc) (id st kyc : JsValue),
    matched_record (users w) id = Some d /\
    users (process_event net req w).2 = update_doc d.1 (updateData st kyc) <$> users w.
Proof.
  unfold process_event, bind, lift, console_write, res_send, ret.
  destruct (body_text _) as [text |]; [| left; reflexivity].
  destruct (JSON_parse_or_throw _) as [event |]; [| left; reflexivity].
  destruct (get event "event") as [tag |]; [| left; reflexivity].
  destruct (received_line tag) as [line |]; [| left; reflexivity].
  simpl. destruct (is_account_event tag); [| left; reflexivity].
  destruct (entity_field event "id") as [id |]; [| left; reflexivity].
  destruct (entity_field event "status") as [st |]; [| left; reflexivity].
  destruct (entity_field event "kyc_status") as [kyc |]; [| left; reflexivity].
  destruct (details_line id st kyc) as [details |]; [| left; reflexivity].
  simpl.
  match goal with |- context [reconcile net id st kyc ?w0] =>
    pose proof (reconcile_users net id st kyc w0) as Hr;
    destruct (reconcile net id st kyc w0) as [r w'] end.
  simpl in Hr.
  assert (users (match r with Ok _ => _ | Throw e => _ end).2 = users w') as ->
    by (destruct r; reflexivity).
  destruct Hr as [-> | (d & _ & _ & Hd & ->)]; [left; reflexivity |].
  right. exists d, id, st, kyc. split; [exact Hd | reflexivity].
Qed.

Lemma razorpay_webhook_users (env : Env) (net : Network) (req : Request) (w : World) :
  users (razorpay_webhook env net req w).2 = users w \/
  exists (d : Doc) (id st kyc : JsValue),
    matched_record (users w) id = Some d /\
    users (razorpay_webhook env net req w).2 = update_doc d.1 (updateData st kyc) <$> users w.
Proof.
  unfold razorpay_webhook, bind, lift.
  destruct (createHmac _) as [secret |]; [| left; reflexivity].
  destruct (hmac_data _) as [data |]; [| left; reflexivity].
  destruct (signature_matches _ _); [apply process_event_users | left; reflexivity].
Qed.

Lemma updateData_other_field (st kyc : JsValue) (k : string) :
  k <> "razorpayAccountStatus" -> k <> "razorpayKycStatus" -> k <> "kycCompleted" ->
  obj_get (rev (updateData st kyc)) k = None.
Proof.
  intros Ha Hk Hc.
  assert (String.eqb "razorpayAccountStatus" k = false) as Ea
    by (apply String.eqb_neq; congruence).
  assert (String.eqb "razorpayKycStatus" k = false) as Ek
    by (apply String.eqb_neq; congruence).
  assert (String.eqb "kycCompleted" k = false) as Ec
    by (apply String.eqb_neq; congruence).
  assert (forall v, obj_set [("razorpayAccountStatus", st); ("razorpayKycStatus", kyc)]
                      "kycCompleted" v
                    = [("razorpayAccountStatus", st); ("razorpayKycStatus", kyc);
                       ("kycCompleted", v)]) as Hset by reflexivity.
  unfold updateData. rewrite !Hset.
  destruct (strict_equals_string kyc "verified");
    [| destruct (strict_equals_string kyc "pending" || strict_equals_string kyc "rejected")];
    cbn [rev app obj_get]; rewrite ?Ec, ?Ek, ?Ea; reflexivity.
Qed.

(** X1: whatever [req.body] and the headers are, the handler of the
    webhook never adds, removes, reorders or renames a document, and in
    every document it leaves every field other than
    [razorpayAccountStatus], [razorpayKycStatus] and [kycCompleted] as it
    was (so [linkedAccountId] and [bankDetails] are never touched). *)
Theorem webhook_preserves_collection
    (env : Env) (net : Network) (req : Request) (w : World) :
  Forall2
    (fun d d' : Doc =>
       d'.1 = d.1 /\
       forall k : string,
         k <> "razorpayAccountStatus" -> k <> "razorpayKycStatus" -> k <> "kycCompleted" ->
         d'.2 !! k = d.2 !! k)
    (users w) (users (razorpay_webhook env net req w).2).
Proof.
  destruct (razorpay_webhook_users env net req w) as [-> | (d & id & st & kyc & _ & ->)].
  - induction (users w); constructor; auto.
  - induction (users w) as [| x us IH]; constructor; [| exact IH].
    unfold update_doc. destruct (String.eqb x.1 d.1); simpl; [| auto].
    split; [reflexivity |]. intros k Ha Hk Hc.
    rewrite apply_update_lookup, updateData_other_field by assumption. reflexivity.
Qed.

Lemma reconcile_calls (net : Network) (id st kyc : JsValue) (w : World) :
  db_calls (reconcile net id st kyc w).2 = (db_calls w ++ [WhereGet "linkedAccountId" id])%list \/
  exists d : Doc,
    matched_record (users w) id = Some d /\
    db_calls (reconcile net id st kyc w).2
    = ((db_calls w ++ [WhereGet "linkedAccountId" id])
         ++ [Update d.1 (updateData st kyc)])%list.
Proof.
  unfold reconcile, try_catch, bind, where_get, matched_record, lift,
    no_producer_line, update_error_line, and_then.
  destruct (firestore_value id); simpl; [| left; destruct (ToString id); reflexivity].
  destruct (get_fails net); [left; destruct (ToString id); reflexivity |].
  destruct (List.filter _ (users w)) as [| d l];
    [left; destruct (ToString id); reflexivity |].
  right. exists d. split; [reflexivity |].
  unfold doc_update. simpl.
  destruct (forallb _ _); simpl; [| destruct (ToString id); reflexivity].
  destruct (update_fails net); [destruct (ToString id); reflexivity |].
  destruct (has_doc d.1 (users w)); simpl; [reflexivity | destruct (ToString id); reflexivity].
Qed.
(** X2: the handler calls the store only for a request whose signature
    header is the digest of [req.body] under the configured secret and
    whose body parses to an event of one of the two account types.  It
    then makes one query, for the account id of that event, and at most
    one write after it: on the first document of that query, with the
    fields built from the status and the KYC status of that event. *)
Theorem webhook_store_calls
    (env : Env) (net : Network) (req : Request) (w : World) :
  let calls := db_calls (razorpay_webhook env net req w).2 in
  calls = db_calls w \/
  exists (secret : string) (data : Buffer) (text : string) (event tag id st kyc : JsValue),
    env !! "RAZORPAY_WEBHOOK_SECRET" = Some secret /\
    hmac_data (body req) = Ok data /\
    headers req !! "x-razorpay-signature" = Some (createHmac_sha256_hex secret data) /\
    body_text (body req) = Ok text /\
    JSON_parse text = Some event /\
    get event "event" = Ok tag /\
    is_account_event tag = true /\
    entity_field event "id" = Ok id /\
    entity_field event "status" = Ok st /\
    entity_field event "kyc_status" = Ok kyc /\
    (calls = (db_calls w ++ [WhereGet "linkedAccountId" id])%list \/
     exists d : Doc,
       matched_record (users w) id = Some d /\
       calls = ((db_calls w ++ [WhereGet "linkedAccountId" id])
                  ++ [Update d.1 (updateData st kyc)])%list).
Proof.
  unfold razorpay_webhook, bind, lift, createHmac. simpl.
  destruct (env !! "RAZORPAY_WEBHOOK_SECRET") as [secret |] eqn:Hsecret; [| left; reflexivity].
  destruct (hmac_data _) as [data |] eqn:Hdata; [| left; reflexivity].
  destruct (signature_matches _ _) eqn:Hsig; [| left; reflexivity].
  apply bool_decide_eq_true in Hsig.
  unfold process_event, bind, lift, console_write, res_send, ret, JSON_parse_or_throw.
  destruct (body_text _) as [text |] eqn:Htext; [| left; reflexivity].
  destruct (JSON_parse text) as [event |] eqn:Hparse; [| left; reflexivity].
  destruct (get event "event") as [tag |] eqn:Htag; [| left; reflexivity].
  destruct (received_line tag) as [line |]; [| left; reflexivity].
  simpl. destruct (is_account_event tag) eqn:Haccount; [| left; reflexivity].
  destruct (entity_field event "id") as [id |] eqn:Hid; [| left; reflexivity].
  destruct (entity_field event "status") as [st |] eqn:Hst; [| left; reflexivity].
  destruct (entity_field event "kyc_status") as [kyc |] eqn:Hkyc; [| left; reflexivity].
  destruct (details_line id st kyc) as [details |]; [| left; reflexivity].
  simpl.
  match goal with |- context [reconcile net id st kyc ?w0] =>
    pose proof (reconcile_calls net id st kyc w0) as Hr;
    destruct (reconcile net id st kyc w0) as [r w'] end.
  simpl in Hr.
  assert (db_calls (match r with Ok _ => _ | Throw e => _ end).2 = db_calls w') as ->
    by (destruct r; reflexivity).
  right. exists secret, data, text, event, tag, id, st, kyc.
  split_all; first [reflexivity | assumption | symmetry; exact Hsig].
Qed.


(** X6: the payment check never reads or writes the store and never logs:
    whatever the request and the environment, the collection, the store
    calls and the console are as before. *)
Theorem verify_payment_leaves_store
    (env : Env) (req_body : JsValue) (w : World) :
  let w' := (verify_payment env req_body w).2 in
  users w' = users w /\ db_calls w' = db_calls w /\ console w' = console w.
Proof.
  unfold verify_payment, bind, lift, res_send. simpl.
  repeat (case_match; simpl in *; simplify_eq); auto.
Qed.

(** X7: with every field present but [KEY_SECRET] not set, the payment
    check throws from [createHmac] before answering: the handler sends
    neither the success nor the failure response. *)
Theorem verify_payment_without_key_throws
    (env : Env) (req_body orderId paymentId razorpaySignature : JsValue) (w : World) :
  get req_body "orderId" = Ok orderId ->
  get req_body "paymentId" = Ok paymentId ->
  get req_body "razorpaySignature" = Ok razorpaySignature ->
  truthy orderId = true -> truthy paymentId = true -> truthy razorpaySignature = true ->
  env !! "KEY_SECRET" = None ->
  verify_payment env req_body w
  = (Throw (TypeError "The key argument must be of type string"), w).
Proof.
  intros Ho Hp Hs To Tp Ts Hkey.
  unfold verify_payment, bind, lift, createHmac.
  rewrite Ho, Hp, Hs. simpl. rewrite To, Tp, Ts, Hkey. reflexivity.
Qed.

End WebhookInvariants.

(** * Manual KYC completion *)

Section CompleteKyc.

Context {platform : Platform} {runtime : Runtime}.

Lemma find_doc_has_doc (us : list Doc) (docid : string) (fields : gmap string JsValue) :
  find_doc us docid = Some fields -> has_doc docid us = true.
Proof.
  unfold has_doc. induction us as [| d us IH]; simpl; [discriminate |].
  destruct (String.eqb d.1 docid); [reflexivity | exact IH].
Qed.

Lemma find_doc_none (us : list Doc) (docid : string) :
  find_doc us docid = None -> has_doc docid us = false.
Proof.
  unfold has_doc. induction us as [| d us IH]; simpl; [reflexivity |].
  destruct (String.eqb d.1 docid); [discriminate | exact IH].
Qed.

Lemma find_doc_update (us : list Doc) (docid : string) (data : list (string * JsValue)) :
  find_doc (update_doc docid data <$> us) docid
  = (fun fields => apply_update fields data) <$> find_doc us docid.
Proof.
  induction us as [| d us IH]; [reflexivity |].
  simpl. rewrite update_doc_id.
  destruct (String.eqb d.1 docid) eqn:E; [| exact IH].
  unfold update_doc. rewrite E. reflexivity.
Qed.

Lemma has_doc_update (us : list Doc) (docid id : string) (data : list (string * JsValue)) :
  has_doc id (update_doc docid data <$> us) = has_doc id us.
Proof.
  unfold has_doc. induction us as [| d us IH]; [reflexivity |].
  simpl. rewrite update_doc_id. f_equal. exact IH.
Qed.

Lemma doc_update_writes
    (net : Network) (docid : string) (data : list (string * JsValue)) (w : World) :
  forallb (fun kv => firestore_value kv.2) data = true ->
  update_fails net = false ->
  has_doc docid (users w) = true ->
  doc_update net docid data w
  = (Ok tt, set_users (update_doc docid data <$> users w) (record_call (Update docid data) w)).
Proof.
  intros Hdata Hnet Hhas. unfold doc_update. rewrite Hdata, Hnet, Hhas. reflexivity.
Qed.

Lemma doc_update_missing
    (net : Network) (docid : string) (data : list (string * JsValue)) (w : World) :
  has_doc docid (users w) = false ->
  exists e, doc_update net docid data w = (Throw e, record_call (Update docid data) w).
Proof.
  intros Hhas. unfold doc_update. rewrite Hhas.
  destruct (forallb _ _); simpl; [| eexists; reflexivity].
  destruct (update_fails net); eexists; reflexivity.
Qed.

(** The request once its five fields are there and the producer id names a
    document: the two ways it ends. *)
Lemma complete_kyc_runs
    (net : Network) (req_body producerId merchantId accountNumber ifscCode beneficiaryName
       : JsValue)
    (p docid : string) (w : World) :
  get req_body "producerId" = Ok producerId ->
  get req_body "merchantId" = Ok merchantId ->
  get req_body "accountNumber" = Ok accountNumber ->
  get req_body "ifscCode" = Ok ifscCode ->
  get req_body "beneficiaryName" = Ok beneficiaryName ->
  truthy producerId = true -> truthy merchantId = true -> truthy accountNumber = true ->
  truthy ifscCode = true -> truthy beneficiaryName = true ->
  ToString producerId = Ok p ->
  users_doc producerId = Ok docid ->
  complete_kyc net req_body w =
    let w1 := {| users := users w; db_calls := db_calls w;
                 console := (console w ++ [(Log, "Incoming KYC Request:")])
                              ++ [(Log, "Attempting Firestore update for producerId: " ++ p)];
                 response := response w |} in
    match doc_update net docid
            (kyc_update merchantId accountNumber ifscCode beneficiaryName) w1 with
    | (Ok _, w2) =>
        (Ok tt,
         {| users := users w2; db_calls := db_calls w2;
            console := console w2
                         ++ [(Log, "✅ KYC details successfully updated for Producer: " ++ p)];
            response :=
              Some {| status := 200;
                      payload := json [("success", JBool true);
                                       ("message", JString "KYC completed and saved.")] |} |})
    | (Throw e, w2) =>
        (Ok tt,
         {| users := users w2; db_calls := db_calls w2;
            console := console w2
                         ++ [(Error, "❌ Failed to complete KYC for producer " ++ p ++ ":")];
            response :=
              Some {| status := 500;
                      payload := json [("error", JString "Failed to complete KYC");
                                       ("details", JString (error_of e))] |} |})
    end.
Proof.
  intros Gp Gm Ga Gi Gb Tp Tm Ta Ti Tb Hp Hdoc.
  unfold complete_kyc, bind, lift, try_catch, console_write, res_send.
  rewrite Gp, Gm, Ga, Gi, Gb. simpl. rewrite Tp, Tm, Ta, Ti, Tb. simpl.
  rewrite Hp, Hdoc. simpl.
  destruct (doc_update net docid _ _) as [[[] | e] w2]; reflexivity.
Qed.

(** X8: when one of the five fields is missing (or otherwise falsy), the
    answer is 400 "Missing required fields" and the store is neither read
    nor written. *)
Theorem complete_kyc_missing_field
    (net : Network) (req_body producerId merchantId accountNumber ifscCode beneficiaryName
       : JsValue) (w : World) :
  get req_body "producerId" = Ok producerId ->
  get req_body "merchantId" = Ok merchantId ->
  get req_body "accountNumber" = Ok accountNumber ->
  get req_body "ifscCode" = Ok ifscCode ->
  get req_body "beneficiaryName" = Ok beneficiaryName ->
  truthy producerId = false \/ truthy merchantId = false \/ truthy accountNumber = false \/
    truthy ifscCode = false \/ truthy beneficiaryName = false ->
  complete_kyc net req_body w =
    (Ok tt,
     {| users := users w;
        db_calls := db_calls w;
        console := (console w ++ [(Log, "Incoming KYC Request:")])
                     ++ [(Error, "❌ Missing fields in KYC submission:")];
        response :=
          Some {| status := 400;
                  payload := json [("error", JString "Missing required fields")] |} |}).
Proof.
  intros Gp Gm Ga Gi Gb Hmissing.
  unfold complete_kyc, bind, lift, console_write, res_send.
  rewrite Gp, Gm, Ga, Gi, Gb. simpl.
  assert (negb (truthy producerId) || negb (truthy merchantId) || negb (truthy accountNumber)
          || negb (truthy ifscCode) || negb (truthy beneficiaryName) = true) as ->.
  { destruct Hmissing as [-> | [-> | [-> | [-> | ->]]]]; simpl;
      rewrite ?orb_true_r; reflexivity. }
  reflexivity.
Qed.

(** X9: for a complete request naming an existing producer, with the store
    taking the write, the answer is 200 and the producer's record then has
    [kycCompleted] true, [linkedAccountId] the request's [merchantId] and
    [bankDetails] the three bank fields; its other fields are kept. *)
Theorem complete_kyc_marks_record
    (net : Network) (req_body producerId merchantId accountNumber ifscCode beneficiaryName
       : JsValue)
    (p docid : string) (fields : gmap string JsValue) (w : World) :
  get req_body "producerId" = Ok producerId ->
  get req_body "merchantId" = Ok merchantId ->
  get req_body "accountNumber" = Ok accountNumber ->
  get req_body "ifscCode" = Ok ifscCode ->
  get req_body "beneficiaryName" = Ok beneficiaryName ->
  truthy producerId = true -> truthy merchantId = true -> truthy accountNumber = true ->
  truthy ifscCode = true -> truthy beneficiaryName = true ->
  ToString producerId = Ok p ->
  users_doc producerId = Ok docid ->
  forallb (fun kv => firestore_value kv.2)
    (kyc_update merchantId accountNumber ifscCode beneficiaryName) = true ->
  update_fails net = false ->
  find_doc (users w) docid = Some fields ->
  let r := complete_kyc net req_body w in
  (status <$> response r.2) = Some 200%N /\
  exists fields' : gmap string JsValue,
    find_doc (users r.2) docid = Some fields' /\
    fields' !! "kycCompleted" = Some (JBool true) /\
    fields' !! "linkedAccountId" = Some merchantId /\
    fields' !! "bankDetails"
      = Some (JObject [("accountNumber", accountNumber); ("ifscCode", ifscCode);
                       ("beneficiaryName", beneficiaryName)]) /\
    forall k : string,
      k <> "kycCompleted" -> k <> "linkedAccountId" -> k <> "bankDetails" ->
      fields' !! k = fields !! k.
Proof.
  intros Gp Gm Ga Gi Gb Tp Tm Ta Ti Tb Hp Hdoc Hdata Hnet Hfind r. subst r.
  rewrite (complete_kyc_runs net req_body producerId merchantId accountNumber ifscCode
             beneficiaryName p docid w) by assumption.
  cbv zeta.
  rewrite doc_update_writes by (try assumption; exact (find_doc_has_doc _ _ _ Hfind)).
  cbn [snd response users set_users record_call]. split; [reflexivity |].
  rewrite find_doc_update, Hfind.
  exists (apply_update fields
            (kyc_update merchantId accountNumber ifscCode beneficiaryName)).
  split; [reflexivity |].
  rewrite !apply_update_lookup. unfold kyc_update. cbn [rev app obj_get].
  split_all; try reflexivity.
  intros k Hk Hl Hb. rewrite apply_update_lookup. cbn [rev app obj_get].
  apply not_eq_sym in Hk, Hl, Hb.
  apply String.eqb_neq in Hk, Hl, Hb. rewrite Hk, Hl, Hb. reflexivity.
Qed.

(** X10: a request naming a producer that has no document is answered 500
    and leaves the collection as it was: the route never creates a
    record. *)
Theorem complete_kyc_unknown_producer
    (net : Network) (req_body producerId merchantId accountNumber ifscCode beneficiaryName
       : JsValue)
    (p docid : string) (w : World) :
  get req_body "producerId" = Ok producerId ->
  get req_body "merchantId" = Ok merchantId ->
  get req_body "accountNumber" = Ok accountNumber ->
  get req_body "ifscCode" = Ok ifscCode ->
  get req_body "beneficiaryName" = Ok beneficiaryName ->
  truthy producerId = true -> truthy merchantId = true -> truthy accountNumber = true ->
  truthy ifscCode = true -> truthy beneficiaryName = true ->
  ToString producerId = Ok p ->
  users_doc producerId = Ok docid ->
  find_doc (users w) docid = None ->
  let r := complete_kyc net req_body w in
  (status <$> response r.2) = Some 500%N /\ users r.2 = users w.
Proof.
  intros Gp Gm Ga Gi Gb Tp Tm Ta Ti Tb Hp Hdoc Hfind r. subst r.
  rewrite (complete_kyc_runs net req_body producerId merchantId accountNumber ifscCode
             beneficiaryName p docid w) by assumption.
  cbv zeta.
  match goal with |- context [doc_update net docid ?data ?w1] =>
    destruct (doc_update_missing net docid data w1 (find_doc_none _ _ Hfind)) as (e & ->) end.
  split; reflexivity.
Qed.

(** The collection after a complete request. *)
Lemma complete_kyc_users
    (net : Network) (req_body producerId merchantId accountNumber ifscCode beneficiaryName
       : JsValue)
    (p docid : string) (w : World) :
  get req_body "producerId" = Ok producerId ->
  get req_body "merchantId" = Ok merchantId ->
  get req_body "accountNumber" = Ok accountNumber ->
  get req_body "ifscCode" = Ok ifscCode ->
  get req_body "beneficiaryName" = Ok beneficiaryName ->
  truthy producerId = true -> truthy merchantId = true -> truthy accountNumber = true ->
  truthy ifscCode = true -> truthy beneficiaryName = true ->
  ToString producerId = Ok p ->
  users_doc producerId = Ok docid ->
  users (complete_kyc net req_body w).2 =
    let data := kyc_update merchantId accountNumber ifscCode beneficiaryName in
    if forallb (fun kv => firestore_value kv.2) data && negb (update_fails net)
       && has_doc docid (users w)
    then update_doc docid data <$> users w
    else users w.
Proof.
  intros Gp Gm Ga Gi Gb Tp Tm Ta Ti Tb Hp Hdoc.
  rewrite (complete_kyc_runs net req_body producerId merchantId accountNumber ifscCode
             beneficiaryName p docid w) by assumption.
  unfold doc_update. cbv zeta.
  set (data := kyc_update merchantId accountNumber ifscCode beneficiaryName).
  destruct (forallb (fun kv => firestore_value kv.2) data); cbn [negb andb];
    [| reflexivity].
  destruct (update_fails net); cbn [negb andb]; [reflexivity |].
  cbn [users]. destruct (has_doc docid (users w)); reflexivity.
Qed.

(** X11: sending the same complete request again changes nothing more: the
    collection after two submissions is the collection after one (whether
    or not the second write reaches the store). *)
Theorem complete_kyc_idempotent
    (net : Network) (req_body producerId merchantId accountNumber ifscCode beneficiaryName
       : JsValue)
    (p docid : string) (w : World) :
  get req_body "producerId" = Ok producerId ->
  get req_body "merchantId" = Ok merchantId ->
  get req_body "accountNumber" = Ok accountNumber ->
  get req_body "ifscCode" = Ok ifscCode ->
  get req_body "beneficiaryName" = Ok beneficiaryName ->
  truthy producerId = true -> truthy merchantId = true -> truthy accountNumber = true ->
  truthy ifscCode = true -> truthy beneficiaryName = true ->
  ToString producerId = Ok p ->
  users_doc producerId = Ok docid ->
  let once := (complete_kyc online req_body w).2 in
  let twice := (complete_kyc net req_body once).2 in
  users twice = users once.
Proof.
  intros Gp Gm Ga Gi Gb Tp Tm Ta Ti Tb Hp Hdoc once twice. subst twice once.
  rewrite (complete_kyc_users net req_body producerId merchantId accountNumber ifscCode
             beneficiaryName p docid) by assumption.
  rewrite (complete_kyc_users online req_body producerId merchantId accountNumber ifscCode
             beneficiaryName p docid w) by assumption.
  cbv zeta.
  set (data := kyc_update merchantId accountNumber ifscCode beneficiaryName).
  destruct (forallb _ data); simpl; [| reflexivity].
  destruct (has_doc docid (users w)) eqn:Hhas.
  - rewrite has_doc_update, Hhas.
    destruct (update_fails net); simpl; [reflexivity |].
    rewrite <- list_fmap_compose.
    apply list_fmap_ext. intros i x _. apply update_doc_idempotent.
  - rewrite Hhas. destruct (update_fails net); reflexivity.
Qed.

Lemma matched_record_none (us : list Doc) (id : JsValue) (d : Doc) :
  matched_record us id = None -> In d us -> doc_matches "linkedAccountId" id d = false.
Proof.
  unfold matched_record. intros Hnone Hin.
  destruct (doc_matches "linkedAccountId" id d) eqn:E; [| reflexivity].
  assert (In d (List.filter (doc_matches "linkedAccountId" id) us)) as Hf
    by (apply filter_In; split; assumption).
  destruct (List.filter _ us); [destruct Hf | discriminate].
Qed.

(** The record a lookup by [m] finds once [docid] has been given the
    linked account [m] and no record carried [m] before. *)
Lemma matched_after_linking
    (us : list Doc) (docid m : string) (data : list (string * JsValue)) :
  obj_get (rev data) "linkedAccountId" = Some (JString m) ->
  matched_record us (JString m) = None ->
  matched_record (update_doc docid data <$> us) (JString m)
  = (fun fields => (docid, apply_update fields data)) <$> find_doc us docid.
Proof.
  intros Hlink. unfold matched_record.
  induction us as [| d us IH]; intros Hnone; [reflexivity |].
  assert (doc_matches "linkedAccountId" (JString m) d = false) as Hd
    by (apply (matched_record_none (d :: us)); [exact Hnone | left; reflexivity]).
  assert (head (List.filter (doc_matches "linkedAccountId" (JString m)) us) = None) as Hrest.
  { simpl in Hnone. rewrite Hd in Hnone. exact Hnone. }
  simpl. unfold update_doc at 1.
  destruct (String.eqb_spec d.1 docid) as [Heq | Hne].
  - subst docid. unfold doc_matches at 1. cbn [snd].
    rewrite apply_update_lookup, Hlink.
    cbn [JsValue_eqb]. rewrite String.eqb_refl.
    unfold update_doc. rewrite String.eqb_refl. reflexivity.
  - rewrite Hd. apply IH. exact Hrest.
Qed.

(** X12: once a producer has been given a linked account by this route, a
    webhook lookup by that account id finds the producer's record (when no
    record carried that id before): what [/complete-kyc] writes is what
    the webhook reads. *)
Theorem complete_kyc_then_lookup
    (net : Network) (req_body producerId accountNumber ifscCode beneficiaryName : JsValue)
    (p docid m : string) (fields : gmap string JsValue) (w : World) :
  get req_body "producerId" = Ok producerId ->
  get req_body "merchantId" = Ok (JString m) ->
  get req_body "accountNumber" = Ok accountNumber ->
  get req_body "ifscCode" = Ok ifscCode ->
  get req_body "beneficiaryName" = Ok beneficiaryName ->
  truthy producerId = true -> truthy (JString m) = true -> truthy accountNumber = true ->
  truthy ifscCode = true -> truthy beneficiaryName = true ->
  ToString producerId = Ok p ->
  users_doc producerId = Ok docid ->
  forallb (fun kv => firestore_value kv.2)
    (kyc_update (JString m) accountNumber ifscCode beneficiaryName) = true ->
  update_fails net = false ->
  find_doc (users w) docid = Some fields ->
  matched_record (users w) (JString m) = None ->
  matched_record (users (complete_kyc net req_body w).2) (JString m)
  = Some (docid,
          apply_update fields (kyc_update (JString m) accountNumber ifscCode beneficiaryName)).
Proof.
  intros Gp Gm Ga Gi Gb Tp Tm Ta Ti Tb Hp Hdoc Hdata Hnet Hfind Hnone.
  rewrite (complete_kyc_users net req_body producerId (JString m) accountNumber ifscCode
             beneficiaryName p docid w) by assumption.
  cbv zeta. rewrite Hdata, Hnet, (find_doc_has_doc _ _ _ Hfind). simpl.
  rewrite matched_after_linking by (reflexivity || assumption).
  rewrite Hfind. reflexivity.
Qed.

End CompleteKyc.

(** * Payouts, onboarding links, linked accounts and orders *)

(** Unfolds the monad of these routes. *)
Ltac run_route :=
  unfold doc_get, start_update;
  unfold fresh, hbind, htry, hret, from_result, respond, request, log,
    on_world, record, responded, thrown_of, set_users;
  cbn [world calls response users db_calls console].

Ltac crunch :=
  cbn [world calls response users db_calls console negb orb andb from_option id
         fst snd].

Section Transfer.

Context {platform : Platform} {runtime : Runtime}.

(** X14: a payout request with [producerId], [amount] or [transactionId]
    missing (or falsy, as an amount of 0 is) is answered 400 before the
    store is read and without any call to Razorpay. *)
Theorem transfer_missing_field
    (transferred : Reply) (net : Network) (req_body producerId amount transactionId : JsValue)
    (s : Site) :
  get req_body "producerId" = Ok producerId ->
  get req_body "amount" = Ok amount ->
  get req_body "transactionId" = Ok transactionId ->
  truthy producerId = false \/ truthy amount = false \/ truthy transactionId = false ->
  transfer transferred net req_body s =
    (Returned tt,
     {| world := responded (world s) 400 (json [("error", JString "Missing fields in request")]);
        calls := calls s |}).
Proof.
  intros Gp Ga Gt Hmissing.
  unfold transfer. run_route. rewrite Gp, Ga, Gt.
  assert (negb (truthy producerId) || negb (truthy amount) || negb (truthy transactionId)
          = true) as ->.
  { destruct Hmissing as [-> | [-> | ->]]; simpl; rewrite ?orb_true_r; reflexivity. }
  reflexivity.
Qed.

(** X15: a payout for a producer that has no document, or whose document
    has no linked account id, is answered 404 after one read of the store
    and no call to Razorpay. *)
Theorem transfer_without_linked_account
    (transferred : Reply) (net : Network) (req_body producerId amount transactionId : JsValue)
    (docid : string) (s : Site) :
  get req_body "producerId" = Ok producerId ->
  get req_body "amount" = Ok amount ->
  get req_body "transactionId" = Ok transactionId ->
  truthy producerId = true -> truthy amount = true -> truthy transactionId = true ->
  users_doc producerId = Ok docid ->
  get_fails net = false ->
  (find_doc (users (world s)) docid = None ->
   transfer transferred net req_body s =
     (Returned tt,
      {| world := responded (world s) 404 (json [("error", JString "Producer not found")]);
         calls := calls s ++ [DocGet docid] |}))
  /\
  (forall fields : gmap string JsValue,
     find_doc (users (world s)) docid = Some fields ->
     truthy (default JUndefined (fields !! "linkedAccountId")) = false ->
     transfer transferred net req_body s =
       (Returned tt,
        {| world := responded (world s) 404
                      (json [("error",
                              JString "Producer linked Razorpay account ID not found")]);
           calls := calls s ++ [DocGet docid] |})).
Proof.
  intros Gp Ga Gt Tp Ta Tt Hdoc Hnet.
  unfold transfer. run_route. rewrite Gp, Ga, Gt, Tp, Ta, Tt, Hdoc, Hnet.
  crunch. split.
  - intros ->. reflexivity.
  - intros fields -> ->. reflexivity.
Qed.

(** X16: when a payout reaches Razorpay, it is one call, made for the
    linked account id stored in the producer's document (not for anything
    the request names) with the request's [transactionId] as reference,
    whatever the other fields of the document are ([kycCompleted] is not
    looked at); the answer is 200 with Razorpay's reply, or 500 with the
    error's message when Razorpay refuses. *)
Theorem transfer_pays_stored_account
    (transferred : Reply) (net : Network)
    (req_body producerId amount transactionId account paise : JsValue)
    (docid : string) (fields : gmap string JsValue) (s : Site) :
  get req_body "producerId" = Ok producerId ->
  get req_body "amount" = Ok amount ->
  get req_body "transactionId" = Ok transactionId ->
  truthy producerId = true -> truthy amount = true -> truthy transactionId = true ->
  users_doc producerId = Ok docid ->
  get_fails net = false ->
  find_doc (users (world s)) docid = Some fields ->
  fields !! "linkedAccountId" = Some account ->
  truthy account = true ->
  Number_times_100 amount = Ok paise ->
  let r := transfer transferred net req_body s in
  calls r.2
  = ((calls s ++ [DocGet docid])
       ++ [TransfersCreate (transfer_args account paise transactionId)])%list /\
  users (world r.2) = users (world s) /\
  response (world r.2)
  = Some match transferred with
         | Replied data =>
             {| status := 200;
                payload := json [("success", JBool true); ("transfer", data)] |}
         | Failed error =>
             {| status := 500;
                payload := json [("error", JString "Transfer failed");
                                 ("details", error_message error)] |}
         end.
Proof.
  intros Gp Ga Gt Tp Ta Tt Hdoc Hnet Hfind Hacc Tacc Hpaise r. subst r.
  unfold transfer. run_route. rewrite Gp, Ga, Gt, Tp, Ta, Tt, Hdoc, Hnet. crunch.
  rewrite Hfind.
  crunch. rewrite Hacc. crunch. rewrite Tacc, Hpaise.
  crunch. destruct transferred; split_all; reflexivity.
Qed.

(** X17: the payout route never writes: whatever the request, the store
    and Razorpay do, the collection and the webhook's store calls are as
    before; and once the request body is an object, the handler always
    returns with an answer sent. *)
Theorem transfer_never_writes
    (transferred : Reply) (net : Network) (req_body : JsValue) (s : Site) :
  let r := transfer transferred net req_body s in
  users (world r.2) = users (world s) /\
  db_calls (world r.2) = db_calls (world s) /\
  (forall producerId, get req_body "producerId" = Ok producerId ->
     r.1 = Returned tt /\ response (world r.2) <> None).
Proof.
  unfold transfer. run_route.
  split_all.
  - repeat (case_match; simpl in *; simplify_eq); reflexivity.
  - repeat (case_match; simpl in *; simplify_eq); reflexivity.
  - intros producerId Gp. rewrite Gp.
    assert (forall p, get req_body p <> Throw (TypeError "Cannot read properties of undefined")
                      /\ get req_body p <> Throw (TypeError "Cannot read properties of null"))
      as Hbody by (destruct req_body; simpl in *; try discriminate; split; discriminate).
    repeat (case_match; simpl in *; simplify_eq); try (split; [reflexivity | discriminate]);
      exfalso;
      match goal with
      | H : get req_body ?p = Throw ?e |- _ =>
          destruct req_body; simpl in *; discriminate
      end.
Qed.

End Transfer.

Section OnboardingLink.

Context {platform : Platform} {runtime : Runtime}.

(** X18: an onboarding link is answered (200) when Razorpay reports the
    account as of type "route" and in status "created" and then returns a
    non-empty [short_url]: the answer carries that url, and exactly two
    calls were made, the account's details and then its onboarding link. *)
Theorem onboarding_link_for_created_route_account
    (env : Env) (details link : Reply) (req_body linkedAccountId account linkData : JsValue)
    (idText linkText : string) (s : Site) :
  get req_body "linkedAccountId" = Ok linkedAccountId ->
  truthy linkedAccountId = true ->
  ToString linkedAccountId = Ok idText ->
  details = Replied account ->
  get account "type" = Ok (JString "route") ->
  get account "status" = Ok (JString "created") ->
  link = Replied linkData ->
  truthy (optional_get linkData "short_url") = true ->
  ToString (optional_get linkData "short_url") = Ok linkText ->
  let r := generate_onboarding_link env details link req_body s in
  r.1 = Returned tt /\
  response (world r.2)
  = Some {| status := 200;
            payload := json [("onboardingLink", optional_get linkData "short_url")] |} /\
  calls r.2
  = ((calls s ++ [HttpGet (accounts_url ++ "/" ++ idText) (razorpay_auth env)])
       ++ [HttpPost (accounts_url ++ "/" ++ idText ++ "/onboarding_link")
             onboarding_branding (razorpay_auth env)])%list.
Proof.
  intros Gid Tid Hid -> Gtype Gstatus -> Tlink Hlink r. subst r.
  unfold generate_onboarding_link. run_route.
  rewrite Gid, Tid, Hid. crunch. rewrite Gtype. cbn [strict_equals_string].
  rewrite String.eqb_refl. crunch. rewrite Gstatus. cbn [strict_equals_string].
  rewrite String.eqb_refl. crunch. rewrite Tlink, Hlink. crunch.
  split_all; reflexivity.
Qed.

(** X19: no onboarding link is asked for an account that is not of type
    "route", or that is not in status "created": the answer is 400 after
    the one call for the account's details, and says which status was
    found. *)
Theorem onboarding_link_refused_for_other_accounts
    (env : Env) (link : Reply) (req_body linkedAccountId account type : JsValue)
    (idText : string) (s : Site) :
  get req_body "linkedAccountId" = Ok linkedAccountId ->
  truthy linkedAccountId = true ->
  ToString linkedAccountId = Ok idText ->
  get account "type" = Ok type ->
  let r := generate_onboarding_link env (Replied account) link req_body s in
  let asked := (calls s ++ [HttpGet (accounts_url ++ "/" ++ idText) (razorpay_auth env)])%list in
  (type <> JString "route" ->
   calls r.2 = asked /\
   response (world r.2)
   = Some {| status := 400;
             payload :=
               json [("error",
                      JString "Account is not of type route, onboarding link not applicable.")]
          |})
  /\
  (forall (accountStatus : JsValue) (statusText : string),
     type = JString "route" ->
     get account "status" = Ok accountStatus ->
     accountStatus <> JString "created" ->
     ToString accountStatus = Ok statusText ->
     calls r.2 = asked /\
     response (world r.2)
     = Some {| status := 400;
               payload :=
                 json [("error",
                        JString ("Cannot generate onboarding link, account status is "
                                   ++ statusText))] |}).
Proof.
  intros Gid Tid Hid Gtype r asked. subst r asked.
  assert (forall (v : JsValue) (t : string),
            v <> JString t -> strict_equals_string v t = false) as Hne.
  { intros v t Hv. destruct v; try reflexivity. simpl.
    apply String.eqb_neq. congruence. }
  unfold generate_onboarding_link. run_route.
  rewrite Gid, Tid, Hid. crunch. rewrite Gtype. split.
  - intros Htype. rewrite (Hne type "route" Htype). crunch. split; reflexivity.
  - intros accountStatus statusText -> Gstatus Hstatus Tstatus.
    cbn [strict_equals_string]. rewrite String.eqb_refl. crunch.
    rewrite Gstatus, (Hne accountStatus "created" Hstatus). crunch.
    rewrite Tstatus. crunch. split; reflexivity.
Qed.

(** X20: the onboarding route always answers: once the request body is an
    object, whatever Razorpay replies (refusals, replies of any shape), the
    handler returns with exactly one of 200, 400 and 500 sent.  The calls
    it made are none, or the GET of the account's details, or that GET and
    then the POST of the onboarding link, both to Razorpay: the store is
    not called, and the collection is as before. *)
Theorem onboarding_link_always_answers
    (env : Env) (details link : Reply) (req_body linkedAccountId : JsValue) (s : Site) :
  get req_body "linkedAccountId" = Ok linkedAccountId ->
  let r := generate_onboarding_link env details link req_body s in
  r.1 = Returned tt /\
  (exists (code : N) (b : ResBody),
     response (world r.2) = Some {| status := code; payload := b |} /\
     (code = 200 \/ code = 400 \/ code = 500)%N) /\
  (calls r.2 = calls s \/
   exists idText : string,
     ToString linkedAccountId = Ok idText /\
     let asked := HttpGet (accounts_url ++ "/" ++ idText) (razorpay_auth env) in
     let linked := HttpPost (accounts_url ++ "/" ++ idText ++ "/onboarding_link")
                     onboarding_branding (razorpay_auth env) in
     (calls r.2 = (calls s ++ [asked])%list \/
      calls r.2 = ((calls s ++ [asked]) ++ [linked])%list)) /\
  users (world r.2) = users (world s).
Proof.
  intros Gid r. subst r.
  unfold generate_onboarding_link. run_route. rewrite Gid.
  repeat (case_match; simpl in *; simplify_eq);
    (split_all;
     [ reflexivity
     | eexists _, _; split; [reflexivity | auto]
     | first [ left; reflexivity
             | right; eexists; split; [first [eassumption | reflexivity] | left; reflexivity]
             | right; eexists; split; [first [eassumption | reflexivity] | right; reflexivity] ]
     | reflexivity ]).
Qed.

End OnboardingLink.

(** ** The phone number sent to Razorpay *)

Lemma only_digits_all_digits (s : string) : Plain.all_digits (only_digits s) = true.
Proof.
  induction s as [| c s IH]; [reflexivity |].
  simpl. destruct (Json.is_digit c) eqn:E; [| exact IH].
  simpl. rewrite E. exact IH.
Qed.

Lemma only_digits_fixed (s : string) : Plain.all_digits s = true -> only_digits s = s.
Proof.
  induction s as [| c s IH]; [reflexivity |].
  simpl. destruct (Json.is_digit c); [| discriminate].
  simpl. intros Hs. rewrite (IH Hs). reflexivity.
Qed.

Lemma strip_plus91_digits (s : string) : Plain.all_digits s = true -> strip_plus91 s = s.
Proof.
  destruct s as [| c s]; [reflexivity |].
  simpl. destruct (Json.is_digit c) eqn:E; [| discriminate].
  intros _. destruct c as [[] [] [] [] [] [] [] []]; try reflexivity; discriminate E.
Qed.

(** X21: the phone number sent to Razorpay holds digits only; a number
    that is already digits only is sent as it is, so cleaning twice is
    cleaning once; and a leading "+91" is dropped, once: a second "+91" or
    a "91" without the plus sign keeps its digits. *)
Theorem sanitize_phone_digits_only (contact : string) :
  Plain.all_digits (sanitize_phone contact) = true /\
  (Plain.all_digits contact = true -> sanitize_phone contact = contact) /\
  sanitize_phone (sanitize_phone contact) = sanitize_phone contact /\
  sanitize_phone ("+91" ++ contact) = only_digits contact /\
  sanitize_phone ("91" ++ contact) = "91" ++ only_digits contact /\
  sanitize_phone ("+91+91" ++ contact) = "91" ++ only_digits contact.
Proof.
  assert (forall s, Plain.all_digits s = true -> sanitize_phone s = s) as Hfixed.
  { intros s Hs. unfold sanitize_phone. rewrite (strip_plus91_digits s Hs).
    exact (only_digits_fixed s Hs). }
  split_all.
  - apply only_digits_all_digits.
  - apply Hfixed.
  - apply Hfixed, only_digits_all_digits.
  - reflexivity.
  - reflexivity.
  - reflexivity.
Qed.

Section LinkedAccount.

Context {platform : Platform} {runtime : Runtime}.

(** X22: a request to create a linked account with [name], [email],
    [contact] or [producerId] missing is answered 400 with no call to
    Razorpay and no call to the store. *)
Theorem create_linked_account_missing_field
    (env : Env) (created patched : Reply) (net : Network)
    (req_body name email contact producerId : JsValue) (s : Site) :
  get req_body "name" = Ok name ->
  get req_body "email" = Ok email ->
  get req_body "contact" = Ok contact ->
  get req_body "producerId" = Ok producerId ->
  truthy name = false \/ truthy email = false \/ truthy contact = false \/
  truthy producerId = false ->
  create_linked_account env created patched net req_body s =
    (Returned tt,
     {| world := responded (world s) 400 (json [("error", JString "Missing required fields")]);
        calls := calls s |}).
Proof.
  intros Gn Ge Gc Gp Hmissing.
  unfold create_linked_account. run_route. rewrite Gn, Ge, Gc, Gp.
  assert (negb (truthy name) || negb (truthy email) || negb (truthy contact)
          || negb (truthy producerId) = true) as ->.
  { destruct Hmissing as [-> | [-> | [-> | ->]]]; simpl; rewrite ?orb_true_r; reflexivity. }
  reflexivity.
Qed.

(** X23: when Razorpay refuses to create the account, the answer is 500
    with Razorpay's description of the error (or the error's message when
    there is none); the creation was the only call: the account is not
    patched and the store is not written. *)
Theorem create_linked_account_creation_refused
    (env : Env) (error : Thrown) (patched : Reply) (net : Network)
    (req_body name email contact producerId : JsValue)
    (phone nameText reference : string) (s : Site) :
  get req_body "name" = Ok name ->
  get req_body "email" = Ok email ->
  get req_body "contact" = Ok contact ->
  get req_body "producerId" = Ok producerId ->
  truthy name = true -> truthy email = true -> truthy contact = true ->
  truthy producerId = true ->
  sanitizedPhone contact = Ok phone ->
  ToString name = Ok nameText ->
  reference_id producerId = Ok reference ->
  let r := create_linked_account env (Failed error) patched net req_body s in
  r.1 = Returned tt /\
  response (world r.2)
  = Some {| status := 500;
            payload := json [("error", JString "Failed to create Razorpay account");
                             ("details", details_of error)] |} /\
  calls r.2
  = (calls s ++ [HttpPost accounts_url (new_account name email phone reference)
                   (razorpay_auth env)])%list /\
  users (world r.2) = users (world s).
Proof.
  intros Gn Ge Gc Gp Tn Te Tc Tp Hphone Hname Href r. subst r.
  unfold create_linked_account. run_route.
  rewrite Gn, Ge, Gc, Gp, Tn, Te, Tc, Tp. crunch.
  rewrite Hphone, Hname. crunch. rewrite Href. crunch.
  split_all; reflexivity.
Qed.

(** X24: once Razorpay has created the account, the answer is 200 with
    the new account's id, and with the store reachable the producer's
    document is linked to it: [linkedAccountId] is the new id and
    [kycCompleted] is false (also when it was true before), the other
    fields are kept; all this whatever the patch of the account came back
    with. *)
Theorem create_linked_account_links_record
    (env : Env) (patched : Reply) (net : Network)
    (req_body name email contact account accountId : JsValue)
    (phone nameText p docid : string) (fields : gmap string JsValue) (s : Site) :
  get req_body "name" = Ok name ->
  get req_body "email" = Ok email ->
  get req_body "contact" = Ok contact ->
  get req_body "producerId" = Ok (JString p) ->
  truthy name = true -> truthy email = true -> truthy contact = true ->
  truthy (JString p) = true ->
  sanitizedPhone contact = Ok phone ->
  ToString name = Ok nameText ->
  get account "id" = Ok accountId ->
  firestore_value accountId = true ->
  users_doc (JString p) = Ok docid ->
  update_fails net = false ->
  find_doc (users (world s)) docid = Some fields ->
  let r := create_linked_account env (Replied account) patched net req_body s in
  r.1 = Returned tt /\
  response (world r.2)
  = Some {| status := 200; payload := json [("accountId", accountId)] |} /\
  (exists fields' : gmap string JsValue,
     find_doc (users (world r.2)) docid = Some fields' /\
     fields' !! "linkedAccountId" = Some accountId /\
     fields' !! "kycCompleted" = Some (JBool false) /\
     forall k : string,
       k <> "linkedAccountId" -> k <> "kycCompleted" -> fields' !! k = fields !! k).
Proof.
  intros Gn Ge Gc Gp Tn Te Tc Tp Hphone Hname Gid Hid Hdoc Hnet Hfind r. subst r.
  pose proof (find_doc_has_doc _ _ _ Hfind) as Hhas.
  unfold create_linked_account. run_route.
  rewrite Gn, Ge, Gc, Gp, Tn, Te, Tc, Tp. crunch.
  rewrite Hphone, Hname. crunch. cbn [reference_id]. crunch. rewrite Gid. crunch.
  assert (forall us : list Doc,
            find_doc us docid = Some fields ->
            exists fields' : gmap string JsValue,
              find_doc (update_doc docid [("linkedAccountId", accountId);
                                          ("kycCompleted", JBool false)] <$> us) docid
              = Some fields' /\
              fields' !! "linkedAccountId" = Some accountId /\
              fields' !! "kycCompleted" = Some (JBool false) /\
              forall k : string,
                k <> "linkedAccountId" -> k <> "kycCompleted" ->
                fields' !! k = fields !! k) as Hwritten.
  { intros us Hus. rewrite find_doc_update, Hus.
    eexists. split; [reflexivity |]. unfold apply_update. cbn [fold_left fst snd].
    split_all.
    - rewrite lookup_insert_ne by discriminate. apply lookup_insert_eq.
    - apply lookup_insert_eq.
    - intros k Hk1 Hk2. rewrite !lookup_insert_ne by congruence. reflexivity. }
  destruct (ToString accountId); [destruct patched |];
    crunch; rewrite Hdoc; crunch; cbn [forallb fst snd]; rewrite Hid;
    cbn [firestore_value andb negb]; crunch;
    rewrite Hnet, Hhas; crunch;
    (split_all; [reflexivity | reflexivity | apply Hwritten; exact Hfind]).
Qed.

(** X25: the answer does not wait for the store: when the write fails
    (the store cannot be reached, or the producer has no document), the
    client has still been answered 200 with the new account's id, the
    handler returns, the collection is unchanged, and the failure is only
    a line on the console. *)
Theorem create_linked_account_answers_before_store
    (env : Env) (patched : Reply) (net : Network)
    (req_body name email contact account accountId : JsValue)
    (phone nameText p docid : string) (s : Site) :
  get req_body "name" = Ok name ->
  get req_body "email" = Ok email ->
  get req_body "contact" = Ok contact ->
  get req_body "producerId" = Ok (JString p) ->
  truthy name = true -> truthy email = true -> truthy contact = true ->
  truthy (JString p) = true ->
  sanitizedPhone contact = Ok phone ->
  ToString name = Ok nameText ->
  get account "id" = Ok accountId ->
  firestore_value accountId = true ->
  users_doc (JString p) = Ok docid ->
  update_fails net = true \/ find_doc (users (world s)) docid = None ->
  let r := create_linked_account env (Replied account) patched net req_body s in
  r.1 = Returned tt /\
  response (world r.2)
  = Some {| status := 200; payload := json [("accountId", accountId)] |} /\
  users (world r.2) = users (world s) /\
  last (console (world r.2)) = Some (Error, "Firestore update error:").
Proof.
  intros Gn Ge Gc Gp Tn Te Tc Tp Hphone Hname Gid Hid Hdoc Hfails r. subst r.
  unfold create_linked_account. run_route.
  rewrite Gn, Ge, Gc, Gp, Tn, Te, Tc, Tp. crunch.
  rewrite Hphone, Hname. crunch. cbn [reference_id]. crunch. rewrite Gid. crunch.
  destruct (ToString accountId); [destruct patched |];
    crunch; rewrite Hdoc; crunch; cbn [forallb fst snd]; rewrite Hid;
    cbn [firestore_value andb negb]; crunch;
    (destruct (update_fails net) eqn:Enet;
     [| destruct Hfails as [? | Hnone];
        [discriminate | rewrite (find_doc_none _ _ Hnone)]]);
    crunch;
    (split_all; [reflexivity | reflexivity | reflexivity | apply last_snoc]).
Qed.

(** X26: when Razorpay's reply to the creation carries no [id], the client
    is answered 200 with no account id; the store then refuses the update
    at once ([undefined] is no value of a field), which lands in the
    handler's own [catch]: that one tries to answer 500 after the 200, and
    the handler ends with this second answer thrown.  The collection is
    unchanged. *)
Theorem create_linked_account_reply_without_id
    (env : Env) (patched : Reply) (net : Network)
    (req_body name email contact account : JsValue)
    (phone nameText p docid : string) (s : Site) :
  get req_body "name" = Ok name ->
  get req_body "email" = Ok email ->
  get req_body "contact" = Ok contact ->
  get req_body "producerId" = Ok (JString p) ->
  truthy name = true -> truthy email = true -> truthy contact = true ->
  truthy (JString p) = true ->
  sanitizedPhone contact = Ok phone ->
  ToString name = Ok nameText ->
  get account "id" = Ok JUndefined ->
  users_doc (JString p) = Ok docid ->
  let r := create_linked_account env (Replied account) patched net req_body s in
  r.1 = Raised (thrown_of (TypeError "Cannot set headers after they are sent to the client")) /\
  response (world r.2)
  = Some {| status := 200; payload := json [("accountId", JUndefined)] |} /\
  users (world r.2) = users (world s).
Proof.
  intros Gn Ge Gc Gp Tn Te Tc Tp Hphone Hname Gid Hdoc r. subst r.
  unfold create_linked_account. run_route.
  rewrite Gn, Ge, Gc, Gp, Tn, Te, Tc, Tp. crunch.
  rewrite Hphone, Hname. crunch. cbn [reference_id]. crunch. rewrite Gid. crunch.
  destruct (ToString JUndefined); [destruct patched |];
    crunch; rewrite Hdoc; crunch; cbn [forallb firestore_value andb negb fst snd]; crunch;
    (split_all; reflexivity).
Qed.

End LinkedAccount.

Section InitiatePayment.

Context {platform : Platform} {runtime : Runtime}.

(** X27: an order is refused with 400, and Razorpay is not called, when
    the amount is missing or zero, when it is not above zero, or when
    [producerAccountId], [consumerId] or [localOrderId] is missing. *)
Theorem initiate_payment_invalid_request
    (ordered : Reply)
    (req_body amount producerAccountId consumerId localOrderId : JsValue) (s : Site) :
  get req_body "amount" = Ok amount ->
  get req_body "producerAccountId" = Ok producerAccountId ->
  get req_body "consumerId" = Ok consumerId ->
  get req_body "localOrderId" = Ok localOrderId ->
  truthy amount = false \/
  Number_le_zero amount = Ok true \/
  (exists b : bool, Number_le_zero amount = Ok b) /\
  (truthy producerAccountId = false \/ truthy consumerId = false \/
   truthy localOrderId = false) ->
  initiate_payment ordered req_body s =
    (Returned tt,
     {| world := responded (world s) 400
                   (json [("error", JString "Missing or invalid fields for order creation")]);
        calls := calls s |}).
Proof.
  intros Ga Gp Gc Gl Hinvalid.
  assert (forall k : string, exists v : JsValue, get req_body k = Ok v) as Hget.
  { intros k. destruct req_body; try discriminate Ga; eexists; reflexivity. }
  destruct (Hget "currency") as (currencyField & Gcur).
  destruct (Hget "paymentMethod") as (paymentMethod & Gm).
  destruct (Hget "upiId") as (upiId & Gu).
  unfold initiate_payment. run_route. rewrite Ga, Gcur, Gp, Gc, Gl, Gm, Gu.
  destruct Hinvalid as [Ta | [Hle | [[b Hle] Hmissing]]].
  - rewrite Ta. reflexivity.
  - rewrite Hle. destruct (truthy amount); reflexivity.
  - rewrite Hle.
    assert (forall x : bool,
              x || negb (truthy producerAccountId) || negb (truthy consumerId)
              || negb (truthy localOrderId) = true) as Hor.
    { intros x. destruct Hmissing as [-> | [-> | ->]]; simpl;
        rewrite ?orb_true_r; reflexivity. }
    destruct (truthy amount); cbn [negb]; rewrite Hor; reflexivity.
Qed.

(** X28: a valid order request makes one call to Razorpay, for the amount
    in paise, with [localOrderId] as receipt; the currency is the
    request's, INR standing in only when the request has none (a [null] or
    empty currency is passed on), and the UPI id is the request's or the
    empty string.  The answer is 200 with the order's id and the request's
    own amount (not the paise), or 500 with the error's message when
    Razorpay refuses. *)
Theorem initiate_payment_creates_order
    (ordered : Reply)
    (req_body amount currencyField producerAccountId consumerId localOrderId paymentMethod
       upiId paise : JsValue) (s : Site) :
  get req_body "amount" = Ok amount ->
  get req_body "currency" = Ok currencyField ->
  get req_body "producerAccountId" = Ok producerAccountId ->
  get req_body "consumerId" = Ok consumerId ->
  get req_body "localOrderId" = Ok localOrderId ->
  get req_body "paymentMethod" = Ok paymentMethod ->
  get req_body "upiId" = Ok upiId ->
  truthy amount = true ->
  Number_le_zero amount = Ok false ->
  truthy producerAccountId = true -> truthy consumerId = true ->
  truthy localOrderId = true ->
  Math_round_times_100 amount = Ok paise ->
  let r := initiate_payment ordered req_body s in
  let currency := match currencyField with JUndefined => JString "INR" | c => c end in
  let upi := if truthy upiId then upiId else JString EmptyString in
  r.1 = Returned tt /\
  calls r.2
  = (calls s
       ++ [OrdersCreate
             (JObject [("amount", paise);
                       ("currency", currency);
                       ("receipt", localOrderId);
                       ("payment_capture", JNumber "1");
                       ("notes",
                        JObject [("producerAccountId", producerAccountId);
                                 ("consumerId", consumerId);
                                 ("paymentMethod", paymentMethod);
                                 ("upiId", upi)])])])%list /\
  match ordered with
  | Replied order =>
      forall orderId : JsValue,
        get order "id" = Ok orderId ->
        response (world r.2)
        = Some {| status := 200;
                  payload := json [("orderId", orderId); ("amount", amount)] |}
  | Failed error =>
      response (world r.2)
      = Some {| status := 500;
                payload := json [("error", JString "Failed to create Razorpay order");
                                 ("details", error_message error)] |}
  end.
Proof.
  intros Ga Gcur Gp Gc Gl Gm Gu Ta Hle Tp Tc Tl Hpaise r currency upi.
  subst r currency upi.
  unfold initiate_payment. run_route.
  rewrite Ga, Gcur, Gp, Gc, Gl, Gm, Gu, Ta. crunch. rewrite Hle, Tp, Tc, Tl. crunch.
  rewrite Hpaise. crunch.
  destruct ordered as [order | error]; crunch.
  - destruct (get order "id") as [orderId | e] eqn:Gid; crunch.
    + split_all; [reflexivity | reflexivity |].
      intros ? [= <-]. reflexivity.
    + split_all; [reflexivity | reflexivity |]. intros ? [=].
  - split_all; reflexivity.
Qed.

(** X29: the order route always answers: for a body that is an object and
    an amount that can be compared with zero, the handler returns with
    exactly one of 200, 400 and 500 sent.  The calls it made are none, or
    the one creation of an order at Razorpay: the store is not called, and
    the collection is as before. *)
Theorem initiate_payment_always_answers
    (ordered : Reply) (req_body amount : JsValue) (notPositive : bool) (s : Site) :
  get req_body "amount" = Ok amount ->
  Number_le_zero amount = Ok notPositive ->
  let r := initiate_payment ordered req_body s in
  r.1 = Returned tt /\
  (exists (code : N) (b : ResBody),
     response (world r.2) = Some {| status := code; payload := b |} /\
     (code = 200 \/ code = 400 \/ code = 500)%N) /\
  (calls r.2 = calls s \/
   exists args : JsValue, calls r.2 = (calls s ++ [OrdersCreate args])%list) /\
  users (world r.2) = users (world s).
Proof.
  intros Ga Hle r. subst r.
  assert (forall k : string, exists v : JsValue, get req_body k = Ok v) as Hget.
  { intros k. destruct req_body; try discriminate Ga; eexists; reflexivity. }
  destruct (Hget "currency") as (currencyField & Gcur).
  destruct (Hget "producerAccountId") as (producerAccountId & Gp).
  destruct (Hget "consumerId") as (consumerId & Gc).
  destruct (Hget "localOrderId") as (localOrderId & Gl).
  destruct (Hget "paymentMethod") as (paymentMethod & Gm).
  destruct (Hget "upiId") as (upiId & Gu).
  unfold initiate_payment. run_route.
  rewrite Ga, Gcur, Gp, Gc, Gl, Gm, Gu, Hle. clear Hget.
  repeat (case_match; simpl in *; simplify_eq);
    (split_all;
     [ reflexivity
     | eexists _, _; split; [reflexivity | auto]
     | first [ left; reflexivity | right; eexists; reflexivity ]
     | reflexivity ]).
Qed.

End InitiatePayment.

(** * The properties of the other routes, on concrete requests *)

Lemma verify_payment_without_key_throws_witness :
  verify_payment (platform := Node) (∅ : Env) (Scenario.payment (JString "abc"))
    (Scenario.world [])
  = (Throw (TypeError "The key argument must be of type string"), Scenario.world []).
Proof.
  apply (verify_payment_without_key_throws (platform := Node) (∅ : Env)
           (Scenario.payment (JString "abc"))
           (JString "order_1") (JString "pay_1") (JString "abc") (Scenario.world []));
    reflexivity.
Defined.

Lemma complete_kyc_missing_field_witness :
  (complete_kyc (platform := Node) (runtime := PlainRuntime) online
     Visit.kyc_request_without_bank (Scenario.world [Visit.p3])).1 = Ok tt.
Proof.
  rewrite (complete_kyc_missing_field (platform := Node) (runtime := PlainRuntime) online
             Visit.kyc_request_without_bank
             (JString "p3") (JString "acc_123") JUndefined JUndefined JUndefined
             (Scenario.world [Visit.p3])).
  - reflexivity.
  - reflexivity.
  - reflexivity.
  - reflexivity.
  - reflexivity.
  - reflexivity.
  - right. right. left. reflexivity.
Defined.

Lemma complete_kyc_marks_record_witness :
  let r := complete_kyc (platform := Node) (runtime := PlainRuntime) online
             Visit.kyc_request (Scenario.world [Visit.p3]) in
  (status <$> response r.2) = Some 200%N /\
  exists fields' : gmap string JsValue,
    find_doc (users r.2) "p3" = Some fields' /\
    fields' !! "kycCompleted" = Some (JBool true) /\
    fields' !! "linkedAccountId" = Some (JString "acc_123") /\
    fields' !! "name" = Some (JString "Asha").
Proof.
  intros r.
  destruct (complete_kyc_marks_record (platform := Node) (runtime := PlainRuntime) online
              Visit.kyc_request
              (JString "p3") (JString "acc_123") (JString "00112233")
              (JString "HDFC0000001") (JString "Asha") "p3" "p3" Visit.p3.2
              (Scenario.world [Visit.p3]))
    as (Hstatus & fields' & Hfind & Hkyc & Hlinked & _ & Hkept);
    try reflexivity.
  split; [exact Hstatus |].
  exists fields'. split_all; [exact Hfind | exact Hkyc | exact Hlinked |].
  rewrite Hkept by discriminate. reflexivity.
Defined.

Lemma complete_kyc_unknown_producer_witness :
  let r := complete_kyc (platform := Node) (runtime := PlainRuntime) online
             Visit.kyc_request (Scenario.world [Scenario.p1]) in
  (status <$> response r.2) = Some 500%N /\ users r.2 = [Scenario.p1].
Proof.
  apply (complete_kyc_unknown_producer (platform := Node) (runtime := PlainRuntime) online
           Visit.kyc_request
           (JString "p3") (JString "acc_123") (JString "00112233")
           (JString "HDFC0000001") (JString "Asha") "p3" "p3"
           (Scenario.world [Scenario.p1]));
    reflexivity.
Defined.

Lemma complete_kyc_idempotent_witness :
  let once := (complete_kyc (platform := Node) (runtime := PlainRuntime) online
                 Visit.kyc_request (Scenario.world [Visit.p3])).2 in
  let twice := (complete_kyc (platform := Node) (runtime := PlainRuntime)
                  Scenario.write_fails Visit.kyc_request once).2 in
  users twice = users once.
Proof.
  apply (complete_kyc_idempotent (platform := Node) (runtime := PlainRuntime)
           Scenario.write_fails Visit.kyc_request
           (JString "p3") (JString "acc_123") (JString "00112233")
           (JString "HDFC0000001") (JString "Asha") "p3" "p3"
           (Scenario.world [Visit.p3]));
    reflexivity.
Defined.

Lemma complete_kyc_then_lookup_witness :
  fst <$> matched_record
            (users (complete_kyc (platform := Node) (runtime := PlainRuntime) online
                      Visit.kyc_request (Scenario.world [Scenario.p2; Visit.p3])).2)
            (JString "acc_123")
  = Some "p3".
Proof.
  rewrite (complete_kyc_then_lookup (platform := Node) (runtime := PlainRuntime) online
             Visit.kyc_request
             (JString "p3") (JString "00112233") (JString "HDFC0000001") (JString "Asha")
             "p3" "p3" "acc_123" Visit.p3.2 (Scenario.world [Scenario.p2; Visit.p3]));
    reflexivity.
Defined.

Lemma transfer_missing_field_witness :
  transfer (platform := Node) (runtime := PlainRuntime) (Replied Visit.transfer_reply)
    online (Visit.payout "0") (Visit.site [Scenario.p1])
  = (Returned tt,
     {| world := responded (Scenario.world [Scenario.p1]) 400
                   (json [("error", JString "Missing fields in request")]);
        calls := [] |}).
Proof.
  apply (transfer_missing_field (platform := Node) (runtime := PlainRuntime)
           (Replied Visit.transfer_reply) online (Visit.payout "0")
           (JString "p1") (JNumber "0") (JString "txn_1") (Visit.site [Scenario.p1])).
  - reflexivity.
  - reflexivity.
  - reflexivity.
  - right. left. reflexivity.
Defined.

Lemma transfer_without_linked_account_witness :
  transfer (platform := Node) (runtime := PlainRuntime) (Replied Visit.transfer_reply)
    online (Visit.payout "250") (Visit.site [Visit.p3])
  = (Returned tt,
     {| world := responded (Scenario.world [Visit.p3]) 404
                   (json [("error", JString "Producer not found")]);
        calls := [DocGet "p1"] |}).
Proof.
  apply (transfer_without_linked_account (platform := Node) (runtime := PlainRuntime)
           (Replied Visit.transfer_reply) online (Visit.payout "250")
           (JString "p1") (JNumber "250") (JString "txn_1") "p1" (Visit.site [Visit.p3]));
    reflexivity.
Defined.

Lemma transfer_pays_stored_account_witness :
  let r := transfer (platform := Node) (runtime := PlainRuntime)
             (Replied Visit.transfer_reply) online (Visit.payout "250")
             (Visit.site [Scenario.p1]) in
  calls r.2
  = [DocGet "p1";
     TransfersCreate
       (transfer_args (JString "acc_123") (JNumber "25000") (JString "txn_1"))] /\
  users (world r.2) = [Scenario.p1] /\
  response (world r.2)
  = Some {| status := 200;
            payload := json [("success", JBool true);
                             ("transfer", Visit.transfer_reply)] |}.
Proof.
  apply (transfer_pays_stored_account (platform := Node) (runtime := PlainRuntime)
           (Replied Visit.transfer_reply) online (Visit.payout "250")
           (JString "p1") (JNumber "250") (JString "txn_1")
           (JString "acc_123") (JNumber "25000") "p1" Scenario.p1.2
           (Visit.site [Scenario.p1]));
    reflexivity.
Defined.

Lemma onboarding_link_for_created_route_account_witness :
  let r := generate_onboarding_link (platform := Node) Visit.env
             (Replied (Visit.account "route" "created")) (Replied Visit.link_reply)
             Visit.onboarding_request (Visit.site []) in
  r.1 = Returned tt /\
  response (world r.2)
  = Some {| status := 200;
            payload := json [("onboardingLink", JString "https://rzp.io/i/abc")] |} /\
  calls r.2
  = [HttpGet "https://api.razorpay.com/v2/accounts/acc_777" (razorpay_auth Visit.env);
     HttpPost "https://api.razorpay.com/v2/accounts/acc_777/onboarding_link"
       onboarding_branding (razorpay_auth Visit.env)].
Proof.
  apply (onboarding_link_for_created_route_account (platform := Node) Visit.env
           (Replied (Visit.account "route" "created")) (Replied Visit.link_reply)
           Visit.onboarding_request (JString "acc_777")
           (Visit.account "route" "created") Visit.link_reply
           "acc_777" "https://rzp.io/i/abc" (Visit.site []));
    reflexivity.
Defined.

Lemma onboarding_link_refused_for_other_accounts_witness :
  let r := generate_onboarding_link (platform := Node) Visit.env
             (Replied (Visit.account "route" "activated")) (Replied Visit.link_reply)
             Visit.onboarding_request (Visit.site []) in
  calls r.2
  = [HttpGet "https://api.razorpay.com/v2/accounts/acc_777" (razorpay_auth Visit.env)] /\
  response (world r.2)
  = Some {| status := 400;
            payload :=
              json [("error",
                     JString "Cannot generate onboarding link, account status is activated")]
         |}.
Proof.
  destruct (onboarding_link_refused_for_other_accounts (platform := Node) Visit.env
              (Replied Visit.link_reply) Visit.onboarding_request (JString "acc_777")
              (Visit.account "route" "activated") (JString "route") "acc_777"
              (Visit.site []))
    as (_ & Hstatus).
  - reflexivity.
  - reflexivity.
  - reflexivity.
  - reflexivity.
  - apply (Hstatus (JString "activated") "activated").
    + reflexivity.
    + reflexivity.
    + discriminate.
    + reflexivity.
Defined.

Lemma onboarding_link_always_answers_witness :
  let r := generate_onboarding_link (platform := Node) Visit.env
             (Failed Visit.refused) (Replied Visit.link_reply)
             Visit.onboarding_request (Visit.site [Scenario.p1]) in
  r.1 = Returned tt /\
  (calls r.2 = [] \/
   exists idText : string,
     ToString (JString "acc_777") = Ok idText /\
     let asked := HttpGet (accounts_url ++ "/" ++ idText) (razorpay_auth Visit.env) in
     let linked := HttpPost (accounts_url ++ "/" ++ idText ++ "/onboarding_link")
                     onboarding_branding (razorpay_auth Visit.env) in
     (calls r.2 = [asked] \/ calls r.2 = [asked; linked])) /\
  users (world r.2) = [Scenario.p1].
Proof.
  intros r.
  destruct (onboarding_link_always_answers (platform := Node) Visit.env
              (Failed Visit.refused) (Replied Visit.link_reply)
              Visit.onboarding_request (JString "acc_777") (Visit.site [Scenario.p1]))
    as (Hreturned & _ & Hcalls & Husers); [reflexivity |].
  split_all; [exact Hreturned | exact Hcalls | exact Husers].
Defined.

Lemma create_linked_account_missing_field_witness :
  create_linked_account (platform := Node) (runtime := PlainRuntime) Visit.env
    (Replied (Visit.account "route" "created")) (Replied JNull) online
    Visit.new_producer_without_email (Visit.site [Visit.p3])
  = (Returned tt,
     {| world := responded (Scenario.world [Visit.p3]) 400
                   (json [("error", JString "Missing required fields")]);
        calls := [] |}).
Proof.
  apply (create_linked_account_missing_field (platform := Node) (runtime := PlainRuntime)
           Visit.env (Replied (Visit.account "route" "created")) (Replied JNull) online
           Visit.new_producer_without_email
           (JString "Asha") JUndefined (JString "+91 98765-43210") (JString "p3")
           (Visit.site [Visit.p3])).
  - reflexivity.
  - reflexivity.
  - reflexivity.
  - reflexivity.
  - right. left. reflexivity.
Defined.

Lemma create_linked_account_creation_refused_witness :
  let r := create_linked_account (platform := Node) (runtime := PlainRuntime) Visit.env
             (Failed Visit.refused) (Replied JNull) online Visit.new_producer
             (Visit.site [Visit.p3]) in
  r.1 = Returned tt /\
  response (world r.2)
  = Some {| status := 500;
            payload := json [("error", JString "Failed to create Razorpay account");
                             ("details", JString "Invalid account")] |} /\
  calls r.2
  = [HttpPost "https://api.razorpay.com/v2/accounts"
       (new_account (JString "Asha") (JString "asha@example.com") "9876543210" "prod_p3")
       (razorpay_auth Visit.env)] /\
  users (world r.2) = [Visit.p3].
Proof.
  apply (create_linked_account_creation_refused (platform := Node)
           (runtime := PlainRuntime) Visit.env Visit.refused (Replied JNull) online
           Visit.new_producer
           (JString "Asha") (JString "asha@example.com") (JString "+91 98765-43210")
           (JString "p3") "9876543210" "Asha" "prod_p3" (Visit.site [Visit.p3]));
    reflexivity.
Defined.

Lemma create_linked_account_links_record_witness :
  let r := create_linked_account (platform := Node) (runtime := PlainRuntime) Visit.env
             (Replied (Visit.account "route" "created")) (Failed Visit.refused) online
             Visit.new_producer (Visit.site [Visit.p3]) in
  r.1 = Returned tt /\
  response (world r.2)
  = Some {| status := 200; payload := json [("accountId", JString "acc_777")] |} /\
  exists fields' : gmap string JsValue,
    find_doc (users (world r.2)) "p3" = Some fields' /\
    fields' !! "linkedAccountId" = Some (JString "acc_777") /\
    fields' !! "kycCompleted" = Some (JBool false) /\
    fields' !! "name" = Some (JString "Asha").
Proof.
  intros r.
  destruct (create_linked_account_links_record (platform := Node)
              (runtime := PlainRuntime) Visit.env (Failed Visit.refused) online
              Visit.new_producer
              (JString "Asha") (JString "asha@example.com") (JString "+91 98765-43210")
              (Visit.account "route" "created") (JString "acc_777")
              "9876543210" "Asha" "p3" "p3" Visit.p3.2 (Visit.site [Visit.p3]))
    as (Hreturned & Hresponse & fields' & Hfind & Hlinked & Hkyc & Hkept);
    try reflexivity.
  split_all; [exact Hreturned | exact Hresponse |].
  exists fields'. split_all; [exact Hfind | exact Hlinked | exact Hkyc |].
  rewrite Hkept by discriminate. reflexivity.
Defined.

Lemma create_linked_account_answers_before_store_witness :
  let r := create_linked_account (platform := Node) (runtime := PlainRuntime) Visit.env
             (Replied (Visit.account "route" "created")) (Replied JNull)
             Scenario.write_fails Visit.new_producer (Visit.site [Visit.p3]) in
  r.1 = Returned tt /\
  response (world r.2)
  = Some {| status := 200; payload := json [("accountId", JString "acc_777")] |} /\
  users (world r.2) = [Visit.p3] /\
  last (console (world r.2)) = Some (Error, "Firestore update error:").
Proof.
  apply (create_linked_account_answers_before_store (platform := Node)
           (runtime := PlainRuntime) Visit.env (Replied JNull) Scenario.write_fails
           Visit.new_producer
           (JString "Asha") (JString "asha@example.com") (JString "+91 98765-43210")
           (Visit.account "route" "created") (JString "acc_777")
           "9876543210" "Asha" "p3" "p3" (Visit.site [Visit.p3]));
    try reflexivity.
  left. reflexivity.
Defined.

Lemma create_linked_account_reply_without_id_witness :
  let r := create_linked_account (platform := Node) (runtime := PlainRuntime) Visit.env
             (Replied (JObject [])) (Replied JNull) online Visit.new_producer
             (Visit.site [Visit.p3]) in
  r.1 = Raised (thrown_of (TypeError "Cannot set headers after they are sent to the client")) /\
  response (world r.2)
  = Some {| status := 200; payload := json [("accountId", JUndefined)] |} /\
  users (world r.2) = [Visit.p3].
Proof.
  apply (create_linked_account_reply_without_id (platform := Node)
           (runtime := PlainRuntime) Visit.env (Replied JNull) online Visit.new_producer
           (JString "Asha") (JString "asha@example.com") (JString "+91 98765-43210")
           (JObject []) "9876543210" "Asha" "p3" "p3" (Visit.site [Visit.p3]));
    reflexivity.
Defined.

Lemma initiate_payment_invalid_request_witness :
  initiate_payment (platform := Node) (runtime := PlainRuntime) (Replied Visit.order_reply)
    (Visit.order_request "-5") (Visit.site [])
  = (Returned tt,
     {| world := responded (Scenario.world []) 400
                   (json [("error", JString "Missing or invalid fields for order creation")]);
        calls := [] |}).
Proof.
  apply (initiate_payment_invalid_request (platform := Node) (runtime := PlainRuntime)
           (Replied Visit.order_reply) (Visit.order_request "-5")
           (JNumber "-5") (JString "acc_123") (JString "c1") (JString "order_local_1")
           (Visit.site [])).
  - reflexivity.
  - reflexivity.
  - reflexivity.
  - reflexivity.
  - right. left. reflexivity.
Defined.

Lemma initiate_payment_creates_order_witness :
  let r := initiate_payment (platform := Node) (runtime := PlainRuntime)
             (Replied Visit.order_reply) (Visit.order_request "499") (Visit.site []) in
  calls r.2
  = [OrdersCreate
       (order_options (JNumber "49900") (JString "INR") (JString "order_local_1")
          (JString "acc_123") (JString "c1") (JString "upi") JUndefined)] /\
  response (world r.2)
  = Some {| status := 200;
            payload := json [("orderId", JString "order_9"); ("amount", JNumber "499")] |}.
Proof.
  intros r.
  destruct (initiate_payment_creates_order (platform := Node) (runtime := PlainRuntime)
              (Replied Visit.order_reply) (Visit.order_request "499")
              (JNumber "499") JUndefined (JString "acc_123") (JString "c1")
              (JString "order_local_1") (JString "upi") JUndefined (JNumber "49900")
              (Visit.site []))
    as (_ & Hcalls & Hresponse);
    try reflexivity.
  split; [exact Hcalls |].
  apply (Hresponse (JString "order_9")). reflexivity.
Defined.

Lemma initiate_payment_always_answers_witness :
  let r := initiate_payment (platform := Node) (runtime := PlainRuntime)
             (Failed Visit.refused) (Visit.order_request "499")
             (Visit.site [Scenario.p1]) in
  r.1 = Returned tt /\
  (calls r.2 = [] \/ exists args : JsValue, calls r.2 = [OrdersCreate args]) /\
  users (world r.2) = [Scenario.p1].
Proof.
  intros r.
  destruct (initiate_payment_always_answers (platform := Node) (runtime := PlainRuntime)
              (Failed Visit.refused) (Visit.order_request "499") (JNumber "499") false
              (Visit.site [Scenario.p1]))
    as (Hreturned & _ & Hcalls & Husers); [reflexivity | reflexivity |].
  split_all; [exact Hreturned | exact Hcalls | exact Husers].
Defined.
